(** * open-fitter: RBF deformation transfer, verified against its specification

    A shallow embedding of the numerical core of the repository
    ([rbf_core.py], [spatial_utils.py], [field_generator.py],
    [deformation_pipeline.py]) and the proofs of its specified properties.

    Scalars: Python and NumPy compute on binary64 floats.  The embedding
    idealises them as the real numbers [R] of the Standard Library: every
    arithmetic operation is exact, comparisons are the real ones, and the
    values inf and nan do not exist (the places where the source would
    produce them are modelled as the exception the next statement raises).
    What depends on rounding or on the range of binary64 is therefore
    outside the embedding: the accuracy of a solve, a quotient or a product
    that overflows, the conversion of an integer of 2^1024 or more.

    Arrays: an array of shape (N, 3) is a [list vec3]; any other 2-D array
    is a list of rows.  Integers are [Z].

    Effects: an instance is a record, a method takes the instance and
    returns the instance after the call together with its outcome (a value
    or a raised exception).  Console output and the timer of [generate] have
    no influence on any value and are left out. *)

From Stdlib Require Import String Bool Arith ZArith List Reals Lra Lia.
Import ListNotations.
Local Open Scope R_scope.

(* ================================================================== *)
(** * Python: exceptions, numbers, ranges, dictionaries *)
(* ================================================================== *)

(** The exceptions the modelled code can raise. *)
Inductive exn : Type :=
| RuntimeError (msg : string)
| ValueError (msg : string)
| OverflowError (msg : string)
| ZeroDivisionError (msg : string)
| IndexError (msg : string).

(** The outcome of a call: a value, or a raised exception. *)
Inductive result (A : Type) : Type :=
| Ok (a : A)
| Raise (e : exn).
Arguments Ok {A} a.
Arguments Raise {A} e.

Definition bind {A B : Type} (r : result A) (k : A -> result B) : result B :=
  match r with
  | Ok a => k a
  | Raise e => Raise e
  end.

Definition is_ok {A : Type} (r : result A) : Prop :=
  match r with Ok _ => True | Raise _ => False end.

Notation "x <- r ;; k" := (bind r (fun x => k))
  (at level 61, r at next level, right associativity).

(** Comparisons of real scalars as booleans. *)
Definition Rleb (a b : R) : bool := if Rle_dec a b then true else false.
Definition Rltb (a b : R) : bool := if Rlt_dec a b then true else false.
Definition Rgtb (a b : R) : bool := Rltb b a.
Definition Reqb (a b : R) : bool := if Req_dec_T a b then true else false.

Module Py.

(** [int(x)] on a float: truncation toward zero. *)
Definition int (x : R) : Z := if Rleb 0 x then Zfloor x else Zceil x.

(** [math.ceil] on a finite float. *)
Definition ceil (x : R) : Z := Zceil x.

(** [a / b] on Python floats: a zero divisor raises. *)
Definition div (a b : R) : result R :=
  if Reqb b 0 then Raise (ZeroDivisionError "float division by zero")
  else Ok (a / b).

(** [math.sqrt]: a negative argument raises. *)
Definition math_sqrt (x : R) : result R :=
  if Rltb x 0 then Raise (ValueError "math domain error")
  else Ok (R_sqrt.sqrt x).

(** [params.get(key, default)] on a dictionary of numbers. *)
Definition dict : Type := list (string * R).
Fixpoint get (d : dict) (key : string) (default : R) : R :=
  match d with
  | [] => default
  | (k, v) :: d' => if String.eqb k key then v else get d' key default
  end.

(** [1 << n] on Python integers: a negative shift count raises. *)
Definition shl1 (n : Z) : result Z :=
  if (n <? 0)%Z then Raise (ValueError "negative shift count")
  else Ok (Z.shiftl 1 n).

(** [range(0, stop, step)] for a positive [step]. *)
Definition range0 (stop step : Z) : list Z :=
  if (stop <=? 0)%Z then []
  else map (fun i => (Z.of_nat i * step)%Z)
           (seq 0 (Z.to_nat ((stop + step - 1) / step))).

(** Python's two-argument [min] and [max]: the first argument is kept
    unless the second is strictly smaller (resp. larger). *)
Definition min (a b : R) : R := if Rltb b a then b else a.
Definition max (a b : R) : R := if Rltb a b then b else a.

End Py.

(* ================================================================== *)
(** * NumPy: arrays of shape (N, 3) and general matrices *)
(* ================================================================== *)

Module Np.

(** A row of an (N, 3) array. *)
Definition vec3 : Type := (R * R * R)%type.

Definition v3_zero : vec3 := (0, 0, 0).
Definition v3_add (a b : vec3) : vec3 :=
  let '(ax, ay, az) := a in let '(bx, by_, bz) := b in
  (ax + bx, ay + by_, az + bz).
Definition v3_sub (a b : vec3) : vec3 :=
  let '(ax, ay, az) := a in let '(bx, by_, bz) := b in
  (ax - bx, ay - by_, az - bz).
Definition v3_scale (k : R) (a : vec3) : vec3 :=
  let '(ax, ay, az) := a in (k * ax, k * ay, k * az).

Definition matrix : Type := list (list R).

Fixpoint zip_with {A B C : Type} (f : A -> B -> C) (l : list A) (m : list B)
  : list C :=
  match l, m with
  | a :: l', b :: m' => f a b :: zip_with f l' m'
  | _, _ => []
  end.

(** [a - b] on two (_, 3) arrays, with NumPy's broadcasting of a single
    row; shapes that cannot be broadcast raise. *)
Definition sub (a b : list vec3) : result (list vec3) :=
  if (length a =? length b)%nat then Ok (zip_with v3_sub a b)
  else if (length b =? 1)%nat then
    Ok (map (fun p => v3_sub p (hd v3_zero b)) a)
  else if (length a =? 1)%nat then
    Ok (map (fun q => v3_sub (hd v3_zero a) q) b)
  else Raise (ValueError "operands could not be broadcast together").

(** [a + b] on two (_, 3) arrays of the same shape or with a single row. *)
Definition add (a b : list vec3) : result (list vec3) :=
  if (length a =? length b)%nat then Ok (zip_with v3_add a b)
  else if (length b =? 1)%nat then
    Ok (map (fun p => v3_add p (hd v3_zero b)) a)
  else if (length a =? 1)%nat then
    Ok (map (fun q => v3_add (hd v3_zero a) q) b)
  else Raise (ValueError "operands could not be broadcast together").

(** [b = np.zeros((n + k, 3)); b[:n] = d]: the assigned rows must have
    shape (n, 3) or be a single row that is broadcast. *)
Definition zeros_with_head (n k : nat) (d : list vec3)
  : result (list vec3) :=
  if (length d =? n)%nat then Ok (d ++ repeat v3_zero k)
  else if (length d =? 1)%nat then
    Ok (repeat (hd v3_zero d) n ++ repeat v3_zero k)
  else Raise (ValueError "could not broadcast input array").

(** [np.eye(n)]. *)
Definition eye (n : nat) : matrix :=
  map (fun i => map (fun j => if (i =? j)%nat then 1 else 0) (seq 0 n))
      (seq 0 n).

Definition scale (m : matrix) (k : R) : matrix := map (map (fun a => a * k)) m.

(** Elementwise sum of two matrices of the same shape. *)
Definition madd (a b : matrix) : matrix := zip_with (zip_with Rplus) a b.

(** The transpose of a matrix with [ncols] columns. *)
Definition transpose (ncols : nat) (m : matrix) : matrix :=
  map (fun j => map (fun r => nth j r 0) m) (seq 0 ncols).

(** [sum_i r[i] * B[i]]: one row of a matrix product with an (N, 3) array. *)
Fixpoint lincomb (r : list R) (B : list vec3) : vec3 :=
  match r, B with
  | a :: r', v :: B' => v3_add (v3_scale a v) (lincomb r' B')
  | _, _ => v3_zero
  end.

(** The product of a matrix with an (N, 3) array, without shape check. *)
Definition matmul (A : matrix) (B : list vec3) : list vec3 :=
  map (fun r => lincomb r B) A.

(** [np.dot(A, B)] for [A] of shape (M, k) and [B] of shape (N, 3): the
    inner dimensions must agree.  [k] is passed because a list of rows
    forgets its width when M = 0. *)
Definition dot (k : nat) (A : matrix) (B : list vec3) : result (list vec3) :=
  if (k =? length B)%nat then Ok (matmul A B)
  else Raise (ValueError "shapes not aligned").

(** [m] has shape (r, c). *)
Definition has_shape (r c : nat) (m : matrix) : Prop :=
  length m = r /\ Forall (fun row => length row = c) m.

(** [scipy.spatial.distance.cdist] with the Euclidean metric. *)
Definition euclidean (a b : vec3) : R :=
  let '(ax, ay, az) := a in let '(bx, by_, bz) := b in
  sqrt ((ax - bx) ^ 2 + (ay - by_) ^ 2 + (az - bz) ^ 2).

Definition cdist (XA XB : list vec3) : matrix :=
  map (fun a => map (fun b => euclidean a b) XB) XA.

(** [np.min] of a 1-D array: an empty array raises. *)
Definition amin (l : list R) : result R :=
  match l with
  | [] => Raise (ValueError "zero-size array to reduction operation minimum")
  | d :: l' => Ok (fold_left Rmin l' d)
  end.

(** [np.max] of a 1-D array. *)
Definition amax (l : list R) : result R :=
  match l with
  | [] => Raise (ValueError "zero-size array to reduction operation maximum")
  | d :: l' => Ok (fold_left Rmax l' d)
  end.

End Np.
Import Np.

(* ================================================================== *)
(** * The library routines the code calls *)
(* ================================================================== *)

(** LAPACK (through [numpy.linalg]) and [scipy.spatial.cKDTree] are not code
    of the repository.  They enter the model as an interface with the part of
    their documented contract that the proofs use, which is about shapes
    only: how close the returned arrays are to the exact solution depends
    on the conditioning of the system and is not assumed.
    - [linalg_solve A b] is [None] when [np.linalg.solve] raises
      [LinAlgError] (singular matrix), and otherwise an array of the shape
      of [b];
    - [linalg_lstsq A b] is [np.linalg.lstsq(A, b, rcond=None)[0]], which
      has as many rows as [A] has columns;
    - [kdtree_query data q] is [cKDTree(data).query(q, k=1)] for one query
      point: the distance to the nearest point of [data] and its index. *)
Class Libs : Type := {
  linalg_solve : matrix -> list vec3 -> option (list vec3);
  linalg_lstsq : matrix -> list vec3 -> list vec3;
  kdtree_query : list vec3 -> vec3 -> R * Z;
  solve_shape : forall n A b x,
    has_shape n n A -> length b = n ->
    linalg_solve A b = Some x -> length x = n;
  lstsq_shape : forall m n A b,
    (0 < m)%nat -> has_shape m n A -> length b = m ->
    length (linalg_lstsq A b) = n
}.

(* ================================================================== *)
(** * rbf_core.py *)
(* ================================================================== *)

Module RBFCore.

(** The instance attributes; [None] is Python's [None]. *)
Record t : Type := mk {
  epsilon : R;
  smoothing : R;
  weights : option (list vec3);
  polynomial_weights : option (list vec3);
  control_points : option (list vec3)
}.

Definition __init__ (epsilon smoothing : R) : t :=
  mk epsilon smoothing None None None.

(** Every point set has shape (N, 3). *)
Definition dim : nat := 3.

(** [np.sqrt(r**2 + self.epsilon**2)], elementwise. *)
Definition _kernel_func (self : t) (r : matrix) : matrix :=
  map (map (fun d => sqrt (d ^ 2 + epsilon self ^ 2))) r.

(** [P = np.ones((n, dim + 1)); P[:, 1:] = points]. *)
Definition design_matrix (points : list vec3) : matrix :=
  map (fun p => let '(x, y, z) := p in [1; x; y; z]) points.

(** [A = np.zeros((n + dim + 1, n + dim + 1))] with its three blocks
    assigned: [A[:n, :n] = phi], [A[:n, n:] = P], [A[n:, :n] = P.T]. *)
Definition system_matrix (phi P : matrix) : matrix :=
  zip_with (@app R) phi P
  ++ map (fun r => r ++ repeat 0 (dim + 1)) (transpose (dim + 1) P).

(** The kernel matrix of [fit], with the smoothing term when it is positive. *)
Definition fit_phi (self : t) (source_points : list vec3) : matrix :=
  let num_pts := length source_points in
  let dists := cdist source_points source_points in
  let phi := _kernel_func self dists in
  if Rltb 0 (smoothing self) then madd phi (scale (eye num_pts) (smoothing self))
  else phi.

Definition set_control_points (self : t) (cp : list vec3) : t :=
  mk (epsilon self) (smoothing self) (weights self) (polynomial_weights self)
     (Some cp).

Definition set_weights (self : t) (w pw : list vec3) : t :=
  mk (epsilon self) (smoothing self) (Some w) (Some pw) (control_points self).

Section WithLibs.
Context {L : Libs}.

(** [x = np.linalg.solve(A, b)], and on [LinAlgError] the fallback
    [np.linalg.lstsq(A + np.eye(A.shape[0]) * 1e-6, b, rcond=None)[0]]. *)
Definition solve_or_lstsq (A : matrix) (b : list vec3) : list vec3 :=
  match linalg_solve A b with
  | Some x => x
  | None =>
      let reg := scale (eye (length A)) (1 / 1000000) in
      linalg_lstsq (madd A reg) b
  end.

(** [fit]: the outcome of the call and the instance after it.  The
    assignment to [control_points] precedes the statements that can raise. *)
Definition fit (self : t) (source_points target_points : list vec3)
  : result unit * t :=
  match sub target_points source_points with
  | Raise e => (Raise e, self)
  | Ok displacements =>
      let self := set_control_points self source_points in
      let num_pts := length source_points in
      let phi := fit_phi self source_points in
      let P := design_matrix source_points in
      let A := system_matrix phi P in
      match zeros_with_head num_pts (dim + 1) displacements with
      | Raise e => (Raise e, self)
      | Ok b =>
          let x := solve_or_lstsq A b in
          (Ok tt, set_weights self (firstn num_pts x) (skipn num_pts x))
      end
  end.

(** [predict]: the deformed vertices and the displacements. *)
Definition predict (self : t) (mesh_vertices : list vec3)
  : result (list vec3 * list vec3) :=
  match weights self with
  | None => Raise (RuntimeError "RBF weights not computed. Call fit() first.")
  | Some w =>
      match control_points self, polynomial_weights self with
      | Some cp, Some pw =>
          let dists := cdist mesh_vertices cp in
          let phi := _kernel_func self dists in
          let P := design_matrix mesh_vertices in
          d1 <- dot (length cp) phi w ;;
          d2 <- dot (dim + 1) P pw ;;
          displacements <- add d1 d2 ;;
          deformed_vertices <- add mesh_vertices displacements ;;
          Ok (deformed_vertices, displacements)
      | _, _ => Raise (ValueError "unsupported operand: None")
      end
  end.

End WithLibs.
End RBFCore.

(* ================================================================== *)
(** * spatial_utils.py *)
(* ================================================================== *)

Module SpatialUtils.

(** The instance holds the tree, that is, the indexed points. *)
Record t : Type := mk { tree : list vec3 }.

Definition __init__ (vertices : list vec3) : t := mk vertices.

(** [query_points[mask]]: a boolean mask must have the length of the array. *)
Fixpoint select (points : list vec3) (mask : list bool) : list vec3 :=
  match points, mask with
  | p :: points', m :: mask' =>
      if m then p :: select points' mask' else select points' mask'
  | _, _ => []
  end.

Definition bool_index (points : list vec3) (mask : list bool)
  : result (list vec3) :=
  if (length points =? length mask)%nat then Ok (select points mask)
  else Raise (IndexError "boolean index did not match indexed array").

Section WithLibs.
Context {L : Libs}.

(** [self.tree.query(query_points, k=1)]: distances and indices. *)
Definition find_nearest (self : t) (query_points : list vec3)
  : list R * list Z :=
  let res := map (kdtree_query (tree self)) query_points in
  (map fst res, map snd res).

Definition filter_points_by_distance (self : t) (query_points : list vec3)
  (max_distance : R) : result (list vec3 * list bool) :=
  let '(distances, _) := find_nearest self query_points in
  let mask := map (fun d => Rleb d max_distance) distances in
  filtered <- bool_index query_points mask ;;
  Ok (filtered, mask).

End WithLibs.
End SpatialUtils.

(* ================================================================== *)
(** * field_generator.py *)
(* ================================================================== *)

Module FieldGenerator.

(** What [_get_adaptive_spacing] returns: a Python integer (a number of
    grid units), or [float('inf')]. *)
Inductive spacing : Type :=
| Cells (n : Z)
| Infinite.

(** [cell_size > adaptive_spacing]. *)
Definition size_gt (cell_size : Z) (s : spacing) : bool :=
  match s with
  | Cells n => (n <? cell_size)%Z
  | Infinite => false
  end.

(** The instance attributes.  [spacing_cache] is a dictionary that the
    code only ever assigns the empty dictionary to. *)
Record t : Type := mk {
  spatial : SpatialUtils.t;
  base_spacing : R;
  surface_dist : R;
  max_dist : R;
  min_dist : R;
  density_falloff : R;
  inv_max_min_diff : R;
  spacing_cache : list (R * Z);
  generated_points : list vec3
}.

Definition __init__ (spatial_utils : SpatialUtils.t) (params : Py.dict)
  : result t :=
  let base_spacing := Py.get params "base_grid_spacing" (2 / 100) in
  let surface_dist := Py.get params "surface_distance" (1 / 10) in
  let max_dist := Py.get params "max_distance" (2 / 10) in
  let min_dist := Py.get params "min_distance" (5 / 1000) in
  let density_falloff := Py.get params "density_falloff" 3 in
  inv_max_min_diff <-
    (if Rgtb max_dist min_dist then Py.div 1 (max_dist - min_dist)
     else Ok 1) ;;
  Ok (mk spatial_utils base_spacing surface_dist max_dist min_dist
         density_falloff inv_max_min_diff [] []).

(** The normalised, clamped distance of the third branch. *)
Definition normalized_dist (self : t) (distance : R) : R :=
  let normalized_dist := (distance - min_dist self) * inv_max_min_diff self in
  Py.min 1 (Py.max 0 normalized_dist).

Definition _get_adaptive_spacing (self : t) (distance : R) : result spacing :=
  if Rleb distance (min_dist self) then Ok (Cells 0)
  else if Rgtb distance (surface_dist self) then Ok Infinite
  else
    let normalized_dist := normalized_dist self distance in
    root <- Py.math_sqrt normalized_dist ;;
    let power := root * density_falloff self in
    let level := Py.int (power + 1) in
    size <- Py.shl1 level ;;
    Ok (Cells size).

(** The eight [(dx, dy, dz)] of the nested loops over [[0, 1]], in order. *)
Definition offsets : list (Z * Z * Z) :=
  flat_map (fun dx =>
    flat_map (fun dy => map (fun dz => (dx, dy, dz)) [0; 1]%Z) [0; 1]%Z)
    [0; 1]%Z.

(** [start + d * size * self.base_spacing] on each axis (for a [size]
    that converts to a float: Python raises on integers from 2^1024 on). *)
Definition offset_point (self : t) (x_start y_start z_start : R) (size : Z)
  (d : Z * Z * Z) : vec3 :=
  let '(dx, dy, dz) := d in
  (x_start + IZR (dx * size) * base_spacing self,
   y_start + IZR (dy * size) * base_spacing self,
   z_start + IZR (dz * size) * base_spacing self).

(** The centre of a cell. *)
Definition cell_center (self : t) (x_start y_start z_start : R) (cell_size : Z)
  : vec3 :=
  (x_start + (IZR cell_size * base_spacing self) / 2,
   y_start + (IZR cell_size * base_spacing self) / 2,
   z_start + (IZR cell_size * base_spacing self) / 2).

(** [self.generated_points.append(p)]. *)
Definition append_point (self : t) (p : vec3) : t :=
  mk (spatial self) (base_spacing self) (surface_dist self) (max_dist self)
     (min_dist self) (density_falloff self) (inv_max_min_diff self)
     (spacing_cache self) (generated_points self ++ [p]).

(** [self.generated_points = []; self.spacing_cache = {}]. *)
Definition reset (self : t) : t :=
  mk (spatial self) (base_spacing self) (surface_dist self) (max_dist self)
     (min_dist self) (density_falloff self) (inv_max_min_diff self) [] [].

(** A call on the instance: [None] when the recursion budget of the model
    is exhausted, otherwise the outcome and the instance after the call. *)
Definition call (A : Type) : Type := option (result A * t).

(** A [for] loop whose body mutates the instance; an exception leaves it. *)
Fixpoint for_each {A : Type} (l : list A) (body : A -> t -> call unit)
  (self : t) : call unit :=
  match l with
  | [] => Some (Ok tt, self)
  | a :: l' =>
      match body a self with
      | Some (Ok _, self') => for_each l' body self'
      | other => other
      end
  end.

Section WithLibs.
Context {L : Libs}.

(** [_process_cell], with a budget for the depth of the recursion. *)
Fixpoint process_cell_fuel (fuel : nat) (self : t)
  (x_start y_start z_start : R) (cell_size level max_level : Z)
  {struct fuel} : call unit :=
  let check_points :=
    map (offset_point self x_start y_start z_start cell_size) offsets in
  let dists := fst (SpatialUtils.find_nearest (spatial self) check_points) in
  match amin dists with
  | Raise e => Some (Raise e, self)
  | Ok min_dist_in_cell =>
      if Rgtb min_dist_in_cell (surface_dist self) then Some (Ok tt, self)
      else
        match _get_adaptive_spacing self min_dist_in_cell with
        | Raise e => Some (Raise e, self)
        | Ok adaptive_spacing =>
            if size_gt cell_size adaptive_spacing && (level <? max_level)%Z
            then
              let half_size := (cell_size / 2)%Z in
              if (0 <? half_size)%Z then
                match fuel with
                | O => None
                | S fuel' =>
                    for_each offsets
                      (fun d self =>
                         let '(nx, ny, nz) :=
                           offset_point self x_start y_start z_start
                                        half_size d in
                         process_cell_fuel fuel' self nx ny nz half_size
                                           (level + 1)%Z max_level)
                      self
                end
              else Some (Ok tt, self)
            else
              let center_point :=
                cell_center self x_start y_start z_start cell_size in
              let dist :=
                fst (SpatialUtils.find_nearest (spatial self) [center_point])
              in
              match dist with
              | [] => Some (Raise (IndexError "index 0 is out of bounds"), self)
              | d0 :: _ =>
                  if Rleb d0 (surface_dist self)
                  then Some (Ok tt, append_point self center_point)
                  else Some (Ok tt, self)
              end
        end
  end.

(** [_process_cell]: the recursion descends one level per call and stops
    at [max_level], which bounds its depth. *)
Definition _process_cell (self : t) (x_start y_start z_start : R)
  (cell_size level max_level : Z) : call unit :=
  process_cell_fuel (Z.to_nat (max_level - level)) self
                    x_start y_start z_start cell_size level max_level.

(** [int(ceil(d / self.base_spacing)) + 1], where [d] is a NumPy float:
    dividing by zero gives inf or nan, which [ceil] refuses (as it does
    when a quotient by a tiny non-zero spacing overflows, which the real
    numbers do not show). *)
Definition steps (self : t) (d : R) : result Z :=
  if Reqb (base_spacing self) 0 then
    if Reqb d 0 then Raise (ValueError "cannot convert float NaN to integer")
    else Raise (OverflowError "cannot convert float infinity to integer")
  else Ok (Py.ceil (d / base_spacing self) + 1)%Z.

(** [generate]: the output list and the cache are reset, the root cells
    are visited with z outermost and x innermost, and the output list is
    returned as an array. *)
Definition generate (self : t) (bounds_min bounds_max : vec3)
  : call (list vec3) :=
  let self := reset self in
  let max_level := Py.int (density_falloff self + 1) in
  match Py.shl1 max_level with
  | Raise e => Some (Raise e, self)
  | Ok initial_cell_size =>
      let '(sx, sy, sz) := bounds_min in
      let '(dim_x, dim_y, dim_z) := v3_sub bounds_max bounds_min in
      match (steps_x <- steps self dim_x ;;
             steps_y <- steps self dim_y ;;
             steps_z <- steps self dim_z ;;
             Ok (steps_x, steps_y, steps_z)) with
      | Raise e => Some (Raise e, self)
      | Ok (steps_x, steps_y, steps_z) =>
          let loops :=
            for_each (Py.range0 steps_z initial_cell_size) (fun z self =>
              let z_pos := sz + IZR z * base_spacing self in
              for_each (Py.range0 steps_y initial_cell_size) (fun y self =>
                let y_pos := sy + IZR y * base_spacing self in
                for_each (Py.range0 steps_x initial_cell_size) (fun x self =>
                  let x_pos := sx + IZR x * base_spacing self in
                  _process_cell self x_pos y_pos z_pos
                                initial_cell_size 0 max_level)
                  self)
                self)
              self
          in
          match loops with
          | Some (Ok _, self') => Some (Ok (generated_points self'), self')
          | Some (Raise e, self') => Some (Raise e, self')
          | None => None
          end
      end
  end.

End WithLibs.
End FieldGenerator.

(* ================================================================== *)
(** * deformation_pipeline.py *)
(* ================================================================== *)

Module DeformationPipeline.

Record t : Type := mk {
  params : Py.dict;
  epsilon : R;
  smoothing : R
}.

Definition __init__ (params : Py.dict) : t :=
  mk params (Py.get params "rbf_epsilon" (5 / 10))
     (Py.get params "rbf_smoothing" 0).

(** The dictionary that [bake_field] returns. *)
Record field_data : Type := mk_field_data {
  field_points : list vec3;
  field_displacements : list vec3
}.

(** [np.min(points, axis=0)] and [np.max(points, axis=0)]. *)
Definition min_axis0 (points : list vec3) : result vec3 :=
  x <- amin (map (fun p => fst (fst p)) points) ;;
  y <- amin (map (fun p => snd (fst p)) points) ;;
  z <- amin (map (fun p => snd p) points) ;;
  Ok (x, y, z).

Definition max_axis0 (points : list vec3) : result vec3 :=
  x <- amax (map (fun p => fst (fst p)) points) ;;
  y <- amax (map (fun p => snd (fst p)) points) ;;
  z <- amax (map (fun p => snd p) points) ;;
  Ok (x, y, z).

(** The bounding box of the source, grown by [bbox_margin] on every side. *)
Definition padded_bounds (self : t) (source_verts_basis : list vec3)
  : result (vec3 * vec3) :=
  bounds_min <- min_axis0 source_verts_basis ;;
  bounds_max <- max_axis0 source_verts_basis ;;
  let margin := Py.get (params self) "bbox_margin" (1 / 10) in
  Ok (v3_sub bounds_min (margin, margin, margin),
      v3_add bounds_max (margin, margin, margin)).

Section WithLibs.
Context {L : Libs}.

(** [bake_field]; [None] only if the recursion budget of [generate] were
    exhausted. *)
Definition bake_field (self : t) (source_verts_basis source_verts_deformed
  : list vec3) : option (result field_data) :=
  match padded_bounds self source_verts_basis with
  | Raise e => Some (Raise e)
  | Ok (bounds_min, bounds_max) =>
      let spatial := SpatialUtils.__init__ source_verts_basis in
      match FieldGenerator.__init__ spatial (params self) with
      | Raise e => Some (Raise e)
      | Ok generator =>
          match FieldGenerator.generate generator bounds_min bounds_max with
          | None => None
          | Some (Raise e, _) => Some (Raise e)
          | Some (Ok field_points, _) =>
              if (length field_points =? 0)%nat then
                Some (Raise (RuntimeError
                  "No field points generated. Check params or mesh size."))
              else
                let rbf_1 := RBFCore.__init__ (epsilon self) (smoothing self) in
                match RBFCore.fit rbf_1 source_verts_basis
                                  source_verts_deformed with
                | (Raise e, _) => Some (Raise e)
                | (Ok _, rbf_1) =>
                    Some (r <- RBFCore.predict rbf_1 field_points ;;
                          Ok (mk_field_data field_points (snd r)))
                end
          end
      end
  end.

(** [apply_field]. *)
Definition apply_field (self : t) (data : field_data)
  (target_verts : list vec3) : result (list vec3 * list vec3) :=
  field_points_deformed <-
    add (field_points data) (field_displacements data) ;;
  let rbf_2 := RBFCore.__init__ (epsilon self) (smoothing self) in
  match RBFCore.fit rbf_2 (field_points data) field_points_deformed with
  | (Raise e, _) => Raise e
  | (Ok _, rbf_2) => RBFCore.predict rbf_2 target_verts
  end.

End WithLibs.
End DeformationPipeline.

(* ================================================================== *)
(** * Lemmas on scalars and arrays *)
(* ================================================================== *)

Lemma Rleb_true (a b : R) : Rleb a b = true <-> a <= b.
Proof. unfold Rleb; destruct (Rle_dec a b); split; intros; try easy. Qed.

Lemma Rleb_false (a b : R) : Rleb a b = false <-> b < a.
Proof.
  unfold Rleb; destruct (Rle_dec a b); split; intros; try easy; lra.
Qed.

Lemma Rltb_true (a b : R) : Rltb a b = true <-> a < b.
Proof. unfold Rltb; destruct (Rlt_dec a b); split; intros; try easy. Qed.

Lemma Rltb_false (a b : R) : Rltb a b = false <-> b <= a.
Proof.
  unfold Rltb; destruct (Rlt_dec a b); split; intros; try easy; lra.
Qed.

Lemma Rgtb_true (a b : R) : Rgtb a b = true <-> b < a.
Proof. apply Rltb_true. Qed.

Lemma Rgtb_false (a b : R) : Rgtb a b = false <-> a <= b.
Proof. apply Rltb_false. Qed.

Lemma Reqb_true (a b : R) : Reqb a b = true <-> a = b.
Proof. unfold Reqb; destruct (Req_dec_T a b); split; intros; try easy. Qed.

Lemma Reqb_false (a b : R) : Reqb a b = false <-> a <> b.
Proof. unfold Reqb; destruct (Req_dec_T a b); split; intros; try easy. Qed.

Section ZipWith.
Variables A B C : Type.
Variable f : A -> B -> C.

Lemma zip_with_length (l : list A) (m : list B) :
  length (zip_with f l m) = Nat.min (length l) (length m).
Proof.
  revert m; induction l as [|a l IH]; intros [|b m]; simpl; auto.
Qed.

Lemma Forall_zip_with (P : A -> Prop) (Q : B -> Prop) (S : C -> Prop)
  (l : list A) (m : list B) :
  (forall a b, P a -> Q b -> S (f a b)) ->
  Forall P l -> Forall Q m -> Forall S (zip_with f l m).
Proof.
  intros HS Hl; revert m; induction Hl as [|a l Ha Hl IH];
    intros m Hm; simpl; [constructor|].
  destruct Hm as [|b m Hb Hm]; constructor; auto.
Qed.

End ZipWith.

Lemma has_shape_cons (r c : nat) (row : list R) (m : matrix) :
  length row = c -> has_shape r c m -> has_shape (S r) c (row :: m).
Proof.
  intros Hrow [Hlen Hall]; split; simpl; [congruence | constructor; auto].
Qed.

Lemma has_shape_map_rows (r c : nat) (f : list R -> list R) (m : matrix) :
  (forall row, length (f row) = length row) ->
  has_shape r c m -> has_shape r c (map f m).
Proof.
  intros Hf [Hlen Hall]; split; [now rewrite length_map|].
  apply Forall_map. eapply Forall_impl; [|exact Hall].
  intros row Hrow; simpl. now rewrite Hf.
Qed.

Lemma eye_shape (n : nat) : has_shape n n (eye n).
Proof.
  unfold eye; split; [now rewrite length_map, length_seq|].
  apply Forall_map, Forall_forall; intros i _; simpl.
  now rewrite length_map, length_seq.
Qed.

Lemma scale_shape (r c : nat) (m : matrix) (k : R) :
  has_shape r c m -> has_shape r c (scale m k).
Proof.
  apply has_shape_map_rows; intros row; apply length_map.
Qed.

Lemma madd_shape (r c : nat) (a b : matrix) :
  has_shape r c a -> has_shape r c b -> has_shape r c (madd a b).
Proof.
  intros [Ha Fa] [Hb Fb]; split.
  - unfold madd; rewrite zip_with_length, Ha, Hb; apply Nat.min_id.
  - unfold madd.
    apply Forall_zip_with with (P := fun row => length row = c)
                               (Q := fun row => length row = c); auto.
    intros x y Hx Hy; rewrite zip_with_length, Hx, Hy; apply Nat.min_id.
Qed.

Lemma cdist_shape (XA XB : list vec3) :
  has_shape (length XA) (length XB) (cdist XA XB).
Proof.
  unfold cdist; split; [apply length_map|].
  apply Forall_map, Forall_forall; intros a _; simpl; apply length_map.
Qed.

Lemma transpose_shape (ncols : nat) (m : matrix) :
  has_shape ncols (length m) (transpose ncols m).
Proof.
  unfold transpose; split; [now rewrite length_map, length_seq|].
  apply Forall_map, Forall_forall; intros j _; simpl; apply length_map.
Qed.

Lemma matmul_length (A : matrix) (B : list vec3) :
  length (matmul A B) = length A.
Proof. apply length_map. Qed.

(* ================================================================== *)
(** * Lemmas on [RBFCore] *)
(* ================================================================== *)

Section RBFCoreFacts.
Context {L : Libs}.
Import RBFCore.

(** The system matrix and the right-hand side that [fit] assembles. *)
Definition fit_A (self : RBFCore.t) (source_points : list vec3) : matrix :=
  system_matrix (fit_phi self source_points) (design_matrix source_points).

Definition fit_b (source_points target_points : list vec3) : list vec3 :=
  zip_with v3_sub target_points source_points ++ repeat v3_zero (dim + 1).

Lemma kernel_shape (self : RBFCore.t) (r c : nat) (m : matrix) :
  has_shape r c m -> has_shape r c (_kernel_func self m).
Proof. apply has_shape_map_rows; intros row; apply length_map. Qed.

Lemma fit_phi_shape (self : RBFCore.t) (pts : list vec3) :
  has_shape (length pts) (length pts) (fit_phi self pts).
Proof.
  unfold fit_phi.
  assert (H : has_shape (length pts) (length pts)
                (_kernel_func self (cdist pts pts)))
    by apply kernel_shape, cdist_shape.
  destruct (Rltb 0 (smoothing self)); [|exact H].
  apply madd_shape; [exact H | apply scale_shape, eye_shape].
Qed.

Lemma design_matrix_shape (pts : list vec3) :
  has_shape (length pts) (dim + 1) (design_matrix pts).
Proof.
  unfold design_matrix; split; [apply length_map|].
  apply Forall_map, Forall_forall; intros [[x y] z] _; reflexivity.
Qed.

Lemma system_matrix_shape (n : nat) (phi P : matrix) :
  has_shape n n phi -> has_shape n (dim + 1) P ->
  has_shape (n + (dim + 1)) (n + (dim + 1)) (system_matrix phi P).
Proof.
  intros [Hphi Fphi] [HP FP]; unfold system_matrix; split.
  - rewrite length_app, zip_with_length, length_map, Hphi, HP, Nat.min_id.
    destruct (transpose_shape (dim + 1) P) as [Ht _]; now rewrite Ht.
  - apply Forall_app; split.
    + apply Forall_zip_with with (P := fun row => length row = n)
                                 (Q := fun row => length row = (dim + 1)%nat);
        auto.
      intros a b Ha Hb; now rewrite length_app, Ha, Hb.
    + destruct (transpose_shape (dim + 1) P) as [_ Ft].
      apply Forall_map. eapply Forall_impl; [|exact Ft].
      intros row Hrow; simpl in *.
      rewrite length_app, Hrow, HP; reflexivity.
Qed.

Lemma fit_A_shape (self : RBFCore.t) (pts : list vec3) :
  has_shape (length pts + (dim + 1)) (length pts + (dim + 1)) (fit_A self pts).
Proof.
  apply system_matrix_shape;
    [apply fit_phi_shape | apply design_matrix_shape].
Qed.


Lemma solve_or_lstsq_length (n : nat) (A : matrix) (b : list vec3) :
  (0 < n)%nat -> has_shape n n A -> length b = n ->
  length (solve_or_lstsq A b) = n.
Proof.
  intros Hn HA Hb; unfold solve_or_lstsq.
  destruct (linalg_solve A b) as [x|] eqn:Hs.
  - exact (solve_shape n A b x HA Hb Hs).
  - apply lstsq_shape with (m := n); auto.
    apply madd_shape; [exact HA|].
    destruct HA as [HlenA _]; rewrite HlenA.
    apply scale_shape, eye_shape.
Qed.

(** [fit] on two point sets of the same length: no statement raises. *)
Lemma fit_equal_length (self : RBFCore.t) (source target : list vec3) :
  length target = length source ->
  fit self source target =
    (Ok tt,
     let x := solve_or_lstsq (fit_A self source) (fit_b source target) in
     set_weights (set_control_points self source)
                 (firstn (length source) x) (skipn (length source) x)).
Proof.
  intros Hlen; unfold fit, sub, zeros_with_head.
  rewrite Hlen, Nat.eqb_refl.
  rewrite zip_with_length, Hlen, Nat.min_id, Nat.eqb_refl.
  reflexivity.
Qed.


Lemma v3_add_zero_r (v : vec3) : v3_add v v3_zero = v.
Proof. destruct v as [[x y] z]; unfold v3_add, v3_zero; f_equal; [f_equal|]; lra. Qed.


Lemma v3_add_sub (s t : vec3) : v3_add s (v3_sub t s) = t.
Proof.
  destruct s as [[sx sy] sz], t as [[tx ty] tz].
  unfold v3_add, v3_sub; f_equal; [f_equal|]; lra.
Qed.

Lemma lincomb_nil_r (r : list R) : lincomb r [] = v3_zero.
Proof. destruct r; reflexivity. Qed.



Lemma zip_add_sub (source target : list vec3) :
  length target = length source ->
  zip_with v3_add source (zip_with v3_sub target source) = target.
Proof.
  revert source; induction target as [|t target IH]; intros [|s source] Hlen;
    simpl in *; try discriminate; auto.
  rewrite v3_add_sub. f_equal. apply IH. congruence.
Qed.

(** The displacement that [predict] computes at the query points. *)
Definition predicted_displacements (self : RBFCore.t) (cp w pw q : list vec3)
  : list vec3 :=
  zip_with v3_add (matmul (_kernel_func self (cdist q cp)) w)
                  (matmul (design_matrix q) pw).

(** [predict] on an instance whose stored arrays have matching shapes. *)
Lemma predict_fitted (self : RBFCore.t) (cp w pw q : list vec3) :
  weights self = Some w -> control_points self = Some cp ->
  polynomial_weights self = Some pw ->
  length w = length cp -> length pw = (dim + 1)%nat ->
  predict self q =
    Ok (zip_with v3_add q (predicted_displacements self cp w pw q),
        predicted_displacements self cp w pw q).
Proof.
  intros Hw Hcp Hpw Hlw Hlpw; unfold predict, dot, add.
  rewrite Hw, Hcp, Hpw, Hlw, Hlpw, !Nat.eqb_refl; simpl bind.
  assert (Hd : length (predicted_displacements self cp w pw q) = length q).
  { unfold predicted_displacements.
    rewrite zip_with_length, !matmul_length.
    unfold _kernel_func, cdist, design_matrix.
    rewrite !length_map. apply Nat.min_id. }
  assert (Hm : length (matmul (_kernel_func self (cdist q cp)) w)
               = length (matmul (design_matrix q) pw)).
  { rewrite !matmul_length. unfold _kernel_func, cdist, design_matrix.
    now rewrite !length_map. }
  rewrite Hm, Nat.eqb_refl; simpl bind.
  fold (predicted_displacements self cp w pw q).
  rewrite Hd, Nat.eqb_refl. reflexivity.
Qed.

(** After a [fit] that returned, [predict] returns on every query. *)
Lemma predict_after_fit (self self' : RBFCore.t)
  (source target q : list vec3) :
  fit self source target = (Ok tt, self') ->
  exists w pw,
    weights self' = Some w /\ polynomial_weights self' = Some pw /\
    control_points self' = Some source /\
    length w = length source /\ length pw = (dim + 1)%nat /\
    predict self' q =
      Ok (zip_with v3_add q (predicted_displacements self' source w pw q),
          predicted_displacements self' source w pw q).
Proof.
  unfold fit. destruct (sub target source) as [d|e] eqn:Hsub;
    [|discriminate].
  destruct (zeros_with_head (length source) (dim + 1) d) as [b|e] eqn:Hb;
    [|discriminate].
  intros Hfit; injection Hfit as <-.
  set (A := system_matrix _ _).
  assert (HA : has_shape (length source + (dim + 1))
                 (length source + (dim + 1)) A)
    by apply fit_A_shape.
  assert (Hlb : length b = (length source + (dim + 1))%nat).
  { unfold zeros_with_head in Hb.
    destruct (length d =? length source)%nat eqn:E.
    - apply Nat.eqb_eq in E. injection Hb as <-.
      rewrite length_app, E; reflexivity.
    - destruct (length d =? 1)%nat; [|discriminate].
      injection Hb as <-. rewrite length_app, repeat_length; reflexivity. }
  assert (Hx : length (solve_or_lstsq A b) = (length source + (dim + 1))%nat).
  { apply solve_or_lstsq_length; auto. unfold dim; lia. }
  exists (firstn (length source) (solve_or_lstsq A b)),
         (skipn (length source) (solve_or_lstsq A b)).
  assert (Hw : length (firstn (length source) (solve_or_lstsq A b))
               = length source) by (rewrite length_firstn, Hx; lia).
  assert (Hp : length (skipn (length source) (solve_or_lstsq A b))
               = (dim + 1)%nat) by (rewrite length_skipn, Hx; lia).
  repeat split; auto.
  apply predict_fitted; auto.
Qed.


End RBFCoreFacts.

(* ================================================================== *)
(** * Lemmas on [FieldGenerator] *)
(* ================================================================== *)

Section FieldGeneratorFacts.
Context {L : Libs}.
Import FieldGenerator.

(** The instance with another output list. *)
Definition set_points (self : FieldGenerator.t) (pts : list vec3)
  : FieldGenerator.t :=
  mk (spatial self) (base_spacing self) (surface_dist self) (max_dist self)
     (min_dist self) (density_falloff self) (inv_max_min_diff self)
     (spacing_cache self) pts.

(** The distance of a point to the surface, as the index reports it. *)
Definition surface_distance_of (sp : SpatialUtils.t) (p : vec3) : R :=
  fst (kdtree_query (SpatialUtils.tree sp) p).

(** [self'] is [self] with new points appended to the output list, each of
    them within [surface_dist] of the surface; nothing else differs. *)
Definition grows (self self' : FieldGenerator.t) : Prop :=
  exists new,
    self' = set_points self (generated_points self ++ new) /\
    Forall (fun p => surface_distance_of (spatial self) p
                     <= surface_dist self) new.

Lemma grows_refl (self : FieldGenerator.t) : grows self self.
Proof.
  exists []; split; [|constructor].
  rewrite app_nil_r; destruct self; reflexivity.
Qed.

Lemma grows_trans (s1 s2 s3 : FieldGenerator.t) :
  grows s1 s2 -> grows s2 s3 -> grows s1 s3.
Proof.
  intros [n1 [-> H1]] [n2 [-> H2]]; exists (n1 ++ n2); split.
  - unfold set_points; simpl. now rewrite app_assoc.
  - apply Forall_app; split; auto.
Qed.

Lemma grows_append (self : FieldGenerator.t) (p : vec3) :
  surface_distance_of (spatial self) p <= surface_dist self ->
  grows self (append_point self p).
Proof.
  intros Hp; exists [p]; split; [reflexivity | constructor; auto].
Qed.

Lemma for_each_grows (A : Type) (l : list A)
  (body : A -> FieldGenerator.t -> call unit) :
  (forall a s r s', In a l -> body a s = Some (r, s') -> grows s s') ->
  forall s r s', for_each l body s = Some (r, s') -> grows s s'.
Proof.
  induction l as [|a l IH]; intros Hbody s r s' Hrun; simpl in Hrun.
  - injection Hrun as <- <-; apply grows_refl.
  - destruct (body a s) as [[[[]|e] s1]|] eqn:Hb; try discriminate.
    + apply grows_trans with s1.
      * eapply Hbody; [left; reflexivity | exact Hb].
      * eapply IH; [|exact Hrun].
        intros; eapply Hbody; [right|]; eauto.
    + injection Hrun as <- <-.
      eapply Hbody; [left; reflexivity | exact Hb].
Qed.

Lemma for_each_total (A : Type) (l : list A)
  (body : A -> FieldGenerator.t -> call unit) :
  (forall a s, In a l -> exists r s', body a s = Some (r, s')) ->
  forall s, exists r s', for_each l body s = Some (r, s').
Proof.
  induction l as [|a l IH]; intros Hbody s; simpl.
  - eauto.
  - destruct (Hbody a s (or_introl eq_refl)) as [r [s1 Hb]]; rewrite Hb.
    destruct r as [[]|e]; [|eauto].
    apply IH; intros; apply Hbody; now right.
Qed.

(** Every point that [_process_cell] emits passed the check at the point
    itself, and the call changes nothing but the output list. *)
Lemma process_cell_fuel_grows (fuel : nat) :
  forall self x y z cell_size level max_level r self',
    process_cell_fuel fuel self x y z cell_size level max_level
    = Some (r, self') ->
    grows self self'.
Proof.
  induction fuel as [|fuel IH]; intros self x y z cs lvl ml r self';
    cbn [process_cell_fuel]; destruct (amin _) as [m|e];
    try (intros H; injection H as <- <-; apply grows_refl);
    (destruct (Rgtb m (surface_dist self));
     [intros H; injection H as <- <-; apply grows_refl|]);
    (destruct (_get_adaptive_spacing self m) as [a|e];
     [|intros H; injection H as <- <-; apply grows_refl]);
    (destruct (size_gt cs a && (lvl <? ml)%Z);
     [destruct (0 <? cs / 2)%Z;
      [|intros H; injection H as <- <-; apply grows_refl]
     |cbn [SpatialUtils.find_nearest map fst];
      destruct (Rleb _ _) eqn:Hle;
      intros H; injection H as <- <-;
      [apply grows_append; now apply Rleb_true | apply grows_refl]]).
  - discriminate.
  - apply for_each_grows. intros d s r0 s0 _.
    destruct (offset_point s x y z (cs / 2) d) as [[nx ny] nz].
    apply IH.
Qed.

(** The recursion budget that [_process_cell] passes is sufficient. *)
Lemma process_cell_fuel_total (fuel : nat) :
  forall self x y z cell_size level max_level,
    (Z.to_nat (max_level - level) <= fuel)%nat ->
    exists r self',
      process_cell_fuel fuel self x y z cell_size level max_level
      = Some (r, self').
Proof.
  induction fuel as [|fuel IH]; intros self x y z cs lvl ml Hfuel;
    cbn [process_cell_fuel]; destruct (amin _) as [m|e]; eauto;
    (destruct (Rgtb m (surface_dist self)); eauto);
    (destruct (_get_adaptive_spacing self m) as [a|e]; eauto);
    (destruct (size_gt cs a && (lvl <? ml)%Z) eqn:Hsplit;
     [destruct (0 <? cs / 2)%Z; eauto
     |cbn [SpatialUtils.find_nearest map fst];
      destruct (Rleb _ _); eauto]);
    apply andb_true_iff in Hsplit; destruct Hsplit as [_ Hlt];
    apply Z.ltb_lt in Hlt.
  - lia.
  - apply for_each_total. intros d s _.
    destruct (offset_point s x y z (cs / 2) d) as [[nx ny] nz].
    apply IH. lia.
Qed.

Lemma process_cell_grows self x y z cell_size level max_level r self' :
  _process_cell self x y z cell_size level max_level = Some (r, self') ->
  grows self self'.
Proof. apply process_cell_fuel_grows. Qed.

Lemma process_cell_total self x y z cell_size level max_level :
  exists r self',
    _process_cell self x y z cell_size level max_level = Some (r, self').
Proof. apply process_cell_fuel_total; lia. Qed.

(** A cell that is not split and whose centre passes the final check
    emits exactly its centre. *)
Lemma process_cell_leaf (fuel : nat) (self : FieldGenerator.t) (x y z : R)
  (cell_size level max_level : Z) (m : R) (a : spacing) :
  amin (fst (SpatialUtils.find_nearest (spatial self)
               (map (offset_point self x y z cell_size) offsets))) = Ok m ->
  m <= surface_dist self ->
  _get_adaptive_spacing self m = Ok a ->
  size_gt cell_size a && (level <? max_level)%Z = false ->
  surface_distance_of (spatial self) (cell_center self x y z cell_size)
    <= surface_dist self ->
  process_cell_fuel fuel self x y z cell_size level max_level
  = Some (Ok tt, append_point self (cell_center self x y z cell_size)).
Proof.
  intros Hmin Hsurf Ha Hsplit Hc.
  destruct fuel; cbn [process_cell_fuel]; rewrite Hmin;
    (replace (Rgtb m (surface_dist self)) with false
      by (symmetry; now apply Rgtb_false));
    rewrite Ha, Hsplit; cbn [SpatialUtils.find_nearest map fst];
    fold (surface_distance_of (spatial self)
            (cell_center self x y z cell_size));
    (replace (Rleb _ _) with true by (symmetry; now apply Rleb_true));
    reflexivity.
Qed.

Lemma generate_reset (self : FieldGenerator.t) (bounds_min bounds_max : vec3) :
  generate self bounds_min bounds_max
  = generate (reset self) bounds_min bounds_max.
Proof. reflexivity. Qed.

Lemma reset_set_points (self : FieldGenerator.t) (pts : list vec3) :
  reset (set_points self pts) = reset self.
Proof. reflexivity. Qed.

(** What a [generate] call leaves: the instance as reset, plus the emitted
    points in the output list; the returned array holds these points. *)
Lemma generate_grows (self : FieldGenerator.t) (bounds_min bounds_max : vec3)
  (r : result (list vec3)) (self' : FieldGenerator.t) :
  generate self bounds_min bounds_max = Some (r, self') ->
  grows (reset self) self' /\
  (forall pts, r = Ok pts -> pts = generated_points self').
Proof.
  unfold generate.
  destruct (Py.shl1 _) as [ics|e];
    [|intros H; injection H as <- <-; split;
      [apply grows_refl | discriminate]].
  destruct bounds_min as [[sx sy] sz].
  destruct (v3_sub bounds_max (sx, sy, sz)) as [[dx dy] dz].
  destruct (bind _ _) as [[[steps_x steps_y] steps_z]|e];
    [|intros H; injection H as <- <-; split;
      [apply grows_refl | discriminate]].
  destruct (for_each _ _ _) as [[[[]|e] s1]|] eqn:Hloops; [| |discriminate];
    intros H; injection H as <- <-;
    (split; [|intros pts Hpts; now inversion Hpts]);
    (eapply for_each_grows; [|exact Hloops]);
    intros z s r s' _; apply for_each_grows;
    intros y s0 r0 s0' _; apply for_each_grows;
    intros x s1' r1 s1'' _; apply process_cell_grows.
Qed.

(** [generate] always returns or raises: the recursion is bounded. *)
Lemma generate_total (self : FieldGenerator.t) (bounds_min bounds_max : vec3) :
  exists r self', generate self bounds_min bounds_max = Some (r, self').
Proof.
  unfold generate.
  destruct (Py.shl1 _) as [ics|e]; [|eauto].
  destruct bounds_min as [[sx sy] sz].
  destruct (v3_sub bounds_max (sx, sy, sz)) as [[dx dy] dz].
  destruct (bind _ _) as [[[steps_x steps_y] steps_z]|e]; [|eauto].
  match goal with
  | |- context [for_each ?l ?body ?s] =>
      assert (Hrun : exists r s', for_each l body s = Some (r, s'))
  end.
  - apply for_each_total. intros z s _. apply for_each_total.
    intros y s0 _. apply for_each_total. intros x s1 _.
    apply process_cell_total.
  - destruct Hrun as [r [s' Hrun]]; rewrite Hrun.
    destruct r as [[]|e]; eauto.
Qed.

End FieldGeneratorFacts.

(* ================================================================== *)
(** * Lemmas on the adaptive spacing *)
(* ================================================================== *)

Section AdaptiveSpacingFacts.
Import FieldGenerator.

(** The normalisation factor that [__init__] caches, from the parameters. *)
Definition inv_of (max_dist min_dist : R) : R :=
  if Rgtb max_dist min_dist then 1 / (max_dist - min_dist) else 1.

(** [__init__] never raises: the division is guarded. *)
Lemma init_ok (sp : SpatialUtils.t) (params : Py.dict) :
  FieldGenerator.__init__ sp params =
    Ok (mk sp
          (Py.get params "base_grid_spacing" (2 / 100))
          (Py.get params "surface_distance" (1 / 10))
          (Py.get params "max_distance" (2 / 10))
          (Py.get params "min_distance" (5 / 1000))
          (Py.get params "density_falloff" 3)
          (inv_of (Py.get params "max_distance" (2 / 10))
                  (Py.get params "min_distance" (5 / 1000)))
          [] []).
Proof.
  unfold FieldGenerator.__init__, inv_of.
  destruct (Rgtb _ _) eqn:Hgt; [|reflexivity].
  apply Rgtb_true in Hgt. unfold Py.div.
  replace (Reqb _ 0) with false; [reflexivity|].
  symmetry; apply Reqb_false; lra.
Qed.

Lemma py_max_Rmax (a b : R) : Py.max a b = Rmax a b.
Proof.
  unfold Py.max, Rmax. destruct (Rltb a b) eqn:H.
  - apply Rltb_true in H. destruct (Rle_dec a b); [reflexivity | lra].
  - apply Rltb_false in H. destruct (Rle_dec a b); [lra | reflexivity].
Qed.

Lemma py_min_Rmin (a b : R) : Py.min a b = Rmin a b.
Proof.
  unfold Py.min, Rmin. destruct (Rltb b a) eqn:H.
  - apply Rltb_true in H. destruct (Rle_dec a b); [lra | reflexivity].
  - apply Rltb_false in H. destruct (Rle_dec a b); [reflexivity | lra].
Qed.

(** The clamp keeps the argument of the square root in [0, 1]. *)
Lemma normalized_dist_range (self : FieldGenerator.t) (d : R) :
  0 <= normalized_dist self d <= 1.
Proof.
  unfold normalized_dist. rewrite py_min_Rmin, py_max_Rmax.
  unfold Rmin, Rmax.
  destruct (Rle_dec 0 _); destruct (Rle_dec 1 _); lra.
Qed.

Lemma math_sqrt_normalized (self : FieldGenerator.t) (d : R) :
  Py.math_sqrt (normalized_dist self d) = Ok (sqrt (normalized_dist self d)).
Proof.
  unfold Py.math_sqrt. replace (Rltb _ 0) with false; [reflexivity|].
  symmetry; apply Rltb_false. apply normalized_dist_range.
Qed.

Lemma sqrt_normalized_range (self : FieldGenerator.t) (d : R) :
  0 <= sqrt (normalized_dist self d) <= 1.
Proof.
  split; [apply sqrt_pos|].
  rewrite <- sqrt_1. apply sqrt_le_1_alt. apply normalized_dist_range.
Qed.

Lemma py_int_nonneg (x : R) : 0 <= x -> Py.int x = Zfloor x.
Proof.
  intros H; unfold Py.int. replace (Rleb 0 x) with true; [reflexivity|].
  symmetry; now apply Rleb_true.
Qed.

Lemma py_int_neg (x : R) : x < 0 -> Py.int x = Zceil x.
Proof.
  intros H; unfold Py.int. replace (Rleb 0 x) with false; [reflexivity|].
  symmetry; now apply Rleb_false.
Qed.

Lemma py_int_IZR (z : Z) : Py.int (IZR z) = z.
Proof.
  unfold Py.int. destruct (Rleb 0 (IZR z)); [apply ZfloorZ|].
  apply Zceil_eq; split; lra.
Qed.

Lemma sqrt_gt_bound (a x : R) : 0 <= a -> a * a < x -> a < sqrt x.
Proof.
  intros Ha Hx. rewrite <- (sqrt_square a Ha).
  apply sqrt_lt_1_alt. split; [nra | lra].
Qed.

Lemma sqrt_le_bound (b x : R) : 0 <= b -> x <= b * b -> sqrt x <= b.
Proof.
  intros Hb Hx. destruct (Rle_dec 0 x) as [H0|H0].
  - rewrite <- (sqrt_square b Hb). apply sqrt_le_1_alt. exact Hx.
  - rewrite sqrt_neg_0 by lra. exact Hb.
Qed.

(** [int(x)] is negative exactly when [x <= -1]. *)
Lemma py_int_nonneg_iff (x : R) : (0 <= Py.int x)%Z <-> -1 < x.
Proof.
  destruct (Rle_dec 0 x) as [Hx|Hx].
  - rewrite py_int_nonneg by exact Hx. split; [lra|].
    intros _. apply Zfloor_lub; simpl; exact Hx.
  - rewrite py_int_neg by lra.
    pose proof (Zceil_bound x) as [Hlo Hhi]. split.
    + intros Hc. apply IZR_le in Hc. lra.
    + intros Hgt. apply le_IZR.
      destruct (Z_le_gt_dec 0 (Zceil x)) as [Hz|Hz]; [now apply IZR_le|].
      assert (Zceil x <= -1)%Z as Hm by lia. apply IZR_le in Hm. lra.
Qed.

(** The third branch of [_get_adaptive_spacing], step by step. *)
Lemma adaptive_spacing_band (self : FieldGenerator.t) (d : R) :
  min_dist self < d -> d <= surface_dist self ->
  _get_adaptive_spacing self d =
    (size <- Py.shl1 (Py.int (sqrt (normalized_dist self d)
                              * density_falloff self + 1)) ;;
     Ok (Cells size)).
Proof.
  intros Hmin Hsurf; unfold _get_adaptive_spacing.
  replace (Rleb d (min_dist self)) with false
    by (symmetry; now apply Rleb_false).
  replace (Rgtb d (surface_dist self)) with false
    by (symmetry; now apply Rgtb_false).
  rewrite math_sqrt_normalized. reflexivity.
Qed.

End AdaptiveSpacingFacts.

(* ================================================================== *)
(** * An implementation of the library interface *)
(* ================================================================== *)

(** The interface [Libs] is inhabited: a brute-force nearest-neighbour
    search, a direct solver that recognises the systems whose solution is a
    pure translation (and reports every other system as singular), and a
    least-squares routine that returns the zero array of the right shape.
    The examples below run the model on it. *)
Module Reference.

Fixpoint nearest_from (i : Z) (best : R * Z) (data : list vec3) (q : vec3)
  : R * Z :=
  match data with
  | [] => best
  | v :: data' =>
      let d := euclidean q v in
      nearest_from (i + 1) (if Rltb d (fst best) then (d, i) else best) data' q
  end.

Definition query (data : list vec3) (q : vec3) : R * Z :=
  match data with
  | [] => (0, 0%Z)
  | v :: data' => nearest_from 1 (euclidean q v, 0%Z) data' q
  end.

Definition vec3_eq_dec (a b : vec3) : {a = b} + {a <> b}.
Proof.
  destruct a as [[ax ay] az], b as [[bx by_] bz].
  destruct (Req_dec_T ax bx) as [Hx|Hx];
    [|right; intros H; injection H; intros; contradiction].
  destruct (Req_dec_T ay by_) as [Hy|Hy];
    [|right; intros H; injection H; intros; contradiction].
  destruct (Req_dec_T az bz) as [Hz|Hz];
    [|right; intros H; injection H; intros; contradiction].
  left; subst; reflexivity.
Defined.

(** The solution of a system whose right-hand side is one translation. *)
Definition translation_solution (b : list vec3) : list vec3 :=
  repeat v3_zero (length b - 4) ++ [hd v3_zero b; v3_zero; v3_zero; v3_zero].

Definition solve (A : matrix) (b : list vec3) : option (list vec3) :=
  let x := translation_solution b in
  if (4 <=? length b)%nat then
    if list_eq_dec vec3_eq_dec (matmul A x) b then Some x else None
  else None.

Definition lstsq (A : matrix) (b : list vec3) : list vec3 :=
  repeat v3_zero (length (hd [] A)).

Lemma solve_shape n A b x :
  has_shape n n A -> length b = n ->
  solve A b = Some x -> length x = n.
Proof.
  intros _ Hb; unfold solve.
  destruct (4 <=? length b)%nat eqn:H4; [|discriminate].
  destruct (list_eq_dec _ _ _) as [Heq|]; [|discriminate].
  intros Hx; injection Hx as <-.
  apply Nat.leb_le in H4. unfold translation_solution.
  rewrite length_app, repeat_length; simpl; lia.
Qed.

Lemma lstsq_shape m n A b :
  (0 < m)%nat -> has_shape m n A -> length b = m ->
  length (lstsq A b) = n.
Proof.
  intros Hm [Hlen Hrows] _; unfold lstsq. rewrite repeat_length.
  destruct A as [|row A]; simpl in *; [lia|].
  now inversion Hrows.
Qed.

#[export] Instance libs : Libs := {
  linalg_solve := solve;
  linalg_lstsq := lstsq;
  kdtree_query := query;
  solve_shape := solve_shape;
  lstsq_shape := lstsq_shape
}.

End Reference.

(* ================================================================== *)
(** * The specified properties of [RBFCore] *)
(* ================================================================== *)

Section RBFCoreClaims.
Context {L : Libs}.
Import RBFCore.


(** C6.  [predict] on an instance that was never fitted raises the error
    that names the missing [fit] call; after a [fit] that returned,
    [predict] returns on every query array. *)
Theorem predict_requires_fit (self self' : RBFCore.t)
  (source target q : list vec3) :
  predict (RBFCore.__init__ (epsilon self) (smoothing self)) q
    = Raise (RuntimeError "RBF weights not computed. Call fit() first.") /\
  (weights self = None ->
   predict self q
     = Raise (RuntimeError "RBF weights not computed. Call fit() first.")) /\
  (fit self source target = (Ok tt, self') ->
   exists deformed displacements,
     predict self' q = Ok (deformed, displacements)).
Proof.
  split; [reflexivity|]. split.
  - intros Hw; unfold predict; now rewrite Hw.
  - intros Hfit.
    destruct (predict_after_fit self self' source target q Hfit)
      as (w & pw & _ & _ & _ & _ & _ & Hp).
    eauto.
Qed.

End RBFCoreClaims.

(* ================================================================== *)
(** * The specified properties of [SpatialUtils] *)
(* ================================================================== *)

Section SpatialUtilsClaims.
Context {L : Libs}.
Import SpatialUtils.

Lemma select_map_filter (f : vec3 -> bool) (points : list vec3) :
  select points (map f points) = filter f points.
Proof.
  induction points as [|p points IH]; simpl; [reflexivity|].
  destruct (f p); now rewrite IH.
Qed.

(** C7.  [filter_points_by_distance] returns the query points whose nearest
    distance is at most [max_distance], in their original order, and the
    mask that says for each query point whether it was kept; a point whose
    nearest distance exceeds the threshold is not in the result. *)
Theorem filter_points_by_distance_spec (self : SpatialUtils.t)
  (query_points : list vec3) (max_distance : R) :
  let nearest q := fst (kdtree_query (tree self) q) in
  let keep q := Rleb (nearest q) max_distance in
  fst (find_nearest self query_points) = map nearest query_points /\
  filter_points_by_distance self query_points max_distance
    = Ok (filter keep query_points, map keep query_points) /\
  length (map keep query_points) = length query_points /\
  (forall i q, nth_error query_points i = Some q ->
     exists m, nth_error (map keep query_points) i = Some m /\
               (m = true <-> nearest q <= max_distance)) /\
  (forall q, In q (filter keep query_points) <->
             In q query_points /\ nearest q <= max_distance).
Proof.
  intros nearest keep.
  assert (Hfn : fst (find_nearest self query_points)
                = map nearest query_points).
  { unfold find_nearest; cbn [fst]. now rewrite map_map. }
  split; [exact Hfn|]. split; [|split; [apply length_map|split]].
  - unfold filter_points_by_distance.
    destruct (find_nearest self query_points) as [distances idx] eqn:Hq.
    cbn [fst] in Hfn; subst distances.
    rewrite map_map. fold keep. unfold bool_index.
    rewrite length_map, Nat.eqb_refl; cbn [bind].
    now rewrite select_map_filter.
  - intros i q Hi. exists (keep q). split.
    + rewrite nth_error_map, Hi; reflexivity.
    + unfold keep; apply Rleb_true.
  - intros q. rewrite filter_In. unfold keep. now rewrite Rleb_true.
Qed.

End SpatialUtilsClaims.

(* ================================================================== *)
(** * The specified properties of [FieldGenerator] *)
(* ================================================================== *)

Section FieldGeneratorClaims.
Context {L : Libs}.
Import FieldGenerator.

(** C4.  Every point of the array that [generate] returns is within
    [surface_dist] of the surface, as the spatial index of the instance
    reports its distance; and [generate] does return or raise. *)
Theorem generate_within_surface_distance (self self' : FieldGenerator.t)
  (bounds_min bounds_max : vec3) (points : list vec3) :
  generate self bounds_min bounds_max = Some (Ok points, self') ->
  forall p, In p points ->
    exists d,
      fst (SpatialUtils.find_nearest (spatial self) [p]) = [d] /\
      d <= surface_dist self.
Proof.
  intros Hgen p Hin.
  destruct (generate_grows self bounds_min bounds_max _ _ Hgen)
    as [[new [Hself' Hnew]] Hpts].
  rewrite (Hpts points eq_refl), Hself' in Hin. cbn in Hin.
  rewrite Forall_forall in Hnew.
  exists (surface_distance_of (spatial self) p); split; [reflexivity|].
  exact (Hnew p Hin).
Qed.

(** C9.  [generate] starts from an empty output list: a second call with
    the same bounds gives the same outcome and leaves the same instance,
    the output list and the cache that the instance held before the call
    do not matter, and the call changes no other attribute. *)
Theorem generate_resets_output (self self' : FieldGenerator.t)
  (bounds_min bounds_max : vec3) (r : result (list vec3)) :
  generate self bounds_min bounds_max = Some (r, self') ->
  generate self' bounds_min bounds_max = Some (r, self') /\
  (forall cache points,
     generate (mk (spatial self) (base_spacing self) (surface_dist self)
                  (max_dist self) (min_dist self) (density_falloff self)
                  (inv_max_min_diff self) cache points)
              bounds_min bounds_max
     = Some (r, self')) /\
  (spatial self' = spatial self /\
   base_spacing self' = base_spacing self /\
   surface_dist self' = surface_dist self /\
   max_dist self' = max_dist self /\
   min_dist self' = min_dist self /\
   density_falloff self' = density_falloff self /\
   inv_max_min_diff self' = inv_max_min_diff self /\
   spacing_cache self' = []) /\
  (forall points, r = Ok points -> generated_points self' = points).
Proof.
  intros Hgen.
  destruct (generate_grows self bounds_min bounds_max _ _ Hgen)
    as [[new [Hself' Hnew]] Hpts].
  split; [|split; [|split]].
  - rewrite generate_reset, Hself', reset_set_points.
    rewrite <- Hself'. exact Hgen.
  - intros cache points. exact Hgen.
  - rewrite Hself'; cbn. repeat split; reflexivity.
  - intros points Hr. symmetry; now apply Hpts.
Qed.

End FieldGeneratorClaims.

(* ================================================================== *)
(** * The specified properties of the adaptive spacing *)
(* ================================================================== *)

Section AdaptiveSpacingClaims.
Import FieldGenerator.



End AdaptiveSpacingClaims.

(* ================================================================== *)
(** * The specified properties of [DeformationPipeline] *)
(* ================================================================== *)

Section DeformationPipelineClaims.
Context {L : Libs}.
Import DeformationPipeline.

(** [bake_field] always returns or raises. *)
Lemma bake_field_total (self : DeformationPipeline.t)
  (source_basis source_deformed : list vec3) :
  exists r, bake_field self source_basis source_deformed = Some r.
Proof.
  unfold bake_field.
  destruct (padded_bounds self source_basis) as [[bounds_min bounds_max]|e];
    [|eauto].
  destruct (FieldGenerator.__init__ _ _) as [generator|e]; [|eauto].
  destruct (generate_total generator bounds_min bounds_max)
    as [r [after Hgen]]; rewrite Hgen.
  destruct r as [points|e]; [|eauto].
  destruct (length points =? 0)%nat; [eauto|].
  destruct (RBFCore.fit _ _ _) as [[[]|e] rbf_1]; eauto.
Qed.

(** C5.  Let [generator] be the FieldGenerator that [bake_field] builds
    over the source and [bounds_min], [bounds_max] its padded bounding box.
    If [generate] returns no point, [bake_field] raises its RuntimeError.
    If it returns at least one point, and the two point sets have the same
    length, [bake_field] returns the record of exactly these points and of
    the displacements that the RBF fitted from the source to the deformed
    source predicts at them. *)
Theorem bake_field_spec (self : DeformationPipeline.t)
  (source_basis source_deformed : list vec3)
  (bounds_min bounds_max : vec3) (generator : FieldGenerator.t) :
  padded_bounds self source_basis = Ok (bounds_min, bounds_max) ->
  FieldGenerator.__init__ (SpatialUtils.__init__ source_basis) (params self)
    = Ok generator ->
  (forall after,
     FieldGenerator.generate generator bounds_min bounds_max
       = Some (Ok [], after) ->
     bake_field self source_basis source_deformed
       = Some (Raise (RuntimeError
                 "No field points generated. Check params or mesh size."))) /\
  (forall p points after,
     FieldGenerator.generate generator bounds_min bounds_max
       = Some (Ok (p :: points), after) ->
     length source_deformed = length source_basis ->
     exists rbf_1 deformed displacements,
       RBFCore.fit (RBFCore.__init__ (epsilon self) (smoothing self))
                   source_basis source_deformed = (Ok tt, rbf_1) /\
       RBFCore.predict rbf_1 (p :: points) = Ok (deformed, displacements) /\
       bake_field self source_basis source_deformed
         = Some (Ok (mk_field_data (p :: points) displacements))).
Proof.
  intros Hbounds Hinit; split.
  - intros after Hgen. unfold bake_field.
    now rewrite Hbounds, Hinit, Hgen.
  - intros p points after Hgen Hlen. unfold bake_field.
    rewrite Hbounds, Hinit, Hgen. cbn [length Nat.eqb].
    destruct (RBFCore.fit _ source_basis source_deformed)
      as [r rbf_1] eqn:Hfit.
    pose proof (fit_equal_length
                  (RBFCore.__init__ (epsilon self) (smoothing self))
                  source_basis source_deformed Hlen) as Hok.
    rewrite Hfit in Hok. injection Hok as -> Hrbf.
    destruct (predict_after_fit _ _ _ _ (p :: points) Hfit)
      as (w & pw & _ & _ & _ & _ & _ & Hp).
    exists rbf_1. eexists. eexists.
    split; [reflexivity|]. split; [exact Hp|].
    rewrite Hp. reflexivity.
Qed.

End DeformationPipelineClaims.

(* ================================================================== *)
(** * Further lemmas on arrays *)
(* ================================================================== *)

Lemma fold_min_spec (l : list R) (d : R) :
  In (fold_left Rmin l d) (d :: l) /\
  Forall (fun x => fold_left Rmin l d <= x) (d :: l).
Proof.
  revert d; induction l as [|a l IH]; intros d; cbn [fold_left].
  - split; [now left | constructor; [lra | constructor]].
  - destruct (IH (Rmin d a)) as [Hin Hall].
    inversion Hall as [|? ? Hhd Htl]; subst. split.
    + destruct Hin as [Hin|Hin]; [|now right; right].
      rewrite <- Hin. unfold Rmin. destruct (Rle_dec d a);
        [now left | right; now left].
    + pose proof (Rmin_l d a). pose proof (Rmin_r d a).
      constructor; [lra|]. constructor; [lra | exact Htl].
Qed.

Lemma fold_max_spec (l : list R) (d : R) :
  In (fold_left Rmax l d) (d :: l) /\
  Forall (fun x => x <= fold_left Rmax l d) (d :: l).
Proof.
  revert d; induction l as [|a l IH]; intros d; cbn [fold_left].
  - split; [now left | constructor; [lra | constructor]].
  - destruct (IH (Rmax d a)) as [Hin Hall].
    inversion Hall as [|? ? Hhd Htl]; subst. split.
    + destruct Hin as [Hin|Hin]; [|now right; right].
      rewrite <- Hin. unfold Rmax. destruct (Rle_dec d a);
        [right; now left | now left].
    + pose proof (Rmax_l d a). pose proof (Rmax_r d a).
      constructor; [lra|]. constructor; [lra | exact Htl].
Qed.

Lemma amin_spec (l : list R) (m : R) :
  amin l = Ok m -> In m l /\ Forall (fun x => m <= x) l.
Proof.
  destruct l as [|d l]; [discriminate|]. intros H; injection H as <-.
  apply fold_min_spec.
Qed.

Lemma amax_spec (l : list R) (m : R) :
  amax l = Ok m -> In m l /\ Forall (fun x => x <= m) l.
Proof.
  destruct l as [|d l]; [discriminate|]. intros H; injection H as <-.
  apply fold_max_spec.
Qed.


(* ================================================================== *)
(** * Further properties of [RBFCore] *)
(* ================================================================== *)

Section RBFCoreFurther.
Context {L : Libs}.
Import RBFCore.

Lemma v3_sub_add (p c : vec3) : v3_sub (v3_add p c) p = c.
Proof.
  destruct p as [[px py] pz], c as [[cx cy] cz].
  unfold v3_add, v3_sub; f_equal; [f_equal|]; lra.
Qed.


Lemma zip_sub_add (points displacements : list vec3) :
  length displacements = length points ->
  zip_with v3_sub (zip_with v3_add points displacements) points
  = displacements.
Proof.
  revert points; induction displacements as [|d ds IH]; intros [|p ps] Hlen;
    simpl in *; try discriminate; auto.
  rewrite v3_sub_add. f_equal. apply IH. congruence.
Qed.

Lemma zip_with_repeat_l (A B C : Type) (f : A -> B -> C) (a : A)
  (l : list B) :
  zip_with f (repeat a (length l)) l = map (f a) l.
Proof. induction l as [|b l IH]; simpl; [reflexivity | now rewrite IH]. Qed.

Lemma predicted_displacements_length (self : RBFCore.t)
  (cp w pw q : list vec3) :
  length (predicted_displacements self cp w pw q) = length q.
Proof.
  unfold predicted_displacements.
  rewrite zip_with_length, !matmul_length.
  unfold _kernel_func, cdist, design_matrix.
  rewrite !length_map. apply Nat.min_id.
Qed.

(** X1.  Whenever [fit] returns, on either solve path and also when the
    target was broadcast, the instance holds the control points it was
    given, one weight row per control point and four polynomial rows;
    [predict] then returns, for every query, one displacement per query
    point and the query moved by it. *)
Theorem fit_postcondition (self self' : RBFCore.t)
  (source target q : list vec3) :
  fit self source target = (Ok tt, self') ->
  exists w pw deformed displacements,
    weights self' = Some w /\ polynomial_weights self' = Some pw /\
    control_points self' = Some source /\
    epsilon self' = epsilon self /\ smoothing self' = smoothing self /\
    length w = length source /\ length pw = 4%nat /\
    predict self' q = Ok (deformed, displacements) /\
    length displacements = length q /\
    deformed = zip_with v3_add q displacements.
Proof.
  intros Hfit.
  destruct (predict_after_fit self self' source target q Hfit)
    as (w & pw & Hw & Hpw & Hcp & Hlw & Hlpw & Hp).
  assert (Hcfg : epsilon self' = epsilon self
                 /\ smoothing self' = smoothing self).
  { revert Hfit. unfold fit.
    destruct (sub target source); [|discriminate].
    destruct (zeros_with_head _ _ _); [|discriminate].
    intros H; injection H as <-; split; reflexivity. }
  destruct Hcfg as [He Hs].
  exists w, pw,
    (zip_with v3_add q (predicted_displacements self' source w pw q)),
    (predicted_displacements self' source w pw q).
  repeat split; try assumption.
  apply predicted_displacements_length.
Qed.

(** X2.  Point sets of different lengths, neither of them a single row, are
    refused with a ValueError that leaves the instance untouched. A single
    source row against several target rows is refused too, but only after
    [control_points] was overwritten: the instance then holds the new
    control points with the weights of the earlier fit, if any. *)
Theorem fit_rejects_mismatched_lengths (self : RBFCore.t)
  (source target : list vec3) :
  (length target <> length source ->
   length target <> 1%nat -> length source <> 1%nat ->
   fit self source target
   = (Raise (ValueError "operands could not be broadcast together"), self)) /\
  (length source = 1%nat -> (2 <= length target)%nat ->
   fit self source target
   = (Raise (ValueError "could not broadcast input array"),
      set_control_points self source) /\
   weights (snd (fit self source target)) = weights self /\
   polynomial_weights (snd (fit self source target))
     = polynomial_weights self /\
   control_points (snd (fit self source target)) = Some source).
Proof.
  split.
  - intros Hne Ht Hs. unfold fit, sub.
    apply Nat.eqb_neq in Hne, Ht, Hs. now rewrite Hne, Hs, Ht.
  - intros Hs Ht.
    assert (Hfit : fit self source target
                   = (Raise (ValueError "could not broadcast input array"),
                      set_control_points self source)).
    { unfold fit, sub. rewrite Hs.
      destruct (length target =? 1)%nat eqn:E1;
        [apply Nat.eqb_eq in E1; lia|].
      cbn [Nat.eqb]. unfold zeros_with_head.
      rewrite length_map, E1. reflexivity. }
    rewrite Hfit. repeat split; reflexivity.
Qed.

(** X3.  A target of exactly one row is not refused: it is broadcast, so
    [fit] behaves as if every control point had that one target position. *)
Theorem fit_broadcasts_single_target (self : RBFCore.t)
  (source : list vec3) (t : vec3) :
  fit self source [t] = fit self source (repeat t (length source)).
Proof.
  unfold fit.
  assert (Hsub : sub [t] source = sub (repeat t (length source)) source).
  { unfold sub. rewrite repeat_length. cbn [length hd].
    rewrite !Nat.eqb_refl, zip_with_repeat_l.
    destruct (1 =? length source)%nat eqn:E.
    - apply Nat.eqb_eq in E.
      destruct source as [|p [|p' source]]; try discriminate. reflexivity.
    - rewrite Nat.eqb_sym, E. reflexivity. }
  now rewrite Hsub.
Qed.










End RBFCoreFurther.

(* ================================================================== *)
(** * Further properties of [DeformationPipeline] *)
(* ================================================================== *)

Section DeformationPipelineFurther.
Context {L : Libs}.
Import DeformationPipeline.

(** X13.  The bounding box that [bake_field] hands to the generator encloses
    the source with the margin to spare on every side, and it is tight: on
    each axis some source point lies exactly the margin inside each face. An
    empty source has no bounding box: the reduction raises. *)
Theorem padded_bounds_encloses (self : DeformationPipeline.t)
  (source : list vec3) :
  let margin := Py.get (params self) "bbox_margin" (1 / 10) in
  (forall deformed,
     bake_field self [] deformed
     = Some (Raise (ValueError
                      "zero-size array to reduction operation minimum"))) /\
  (source <> [] ->
   exists lx ly lz hx hy hz,
     padded_bounds self source = Ok ((lx, ly, lz), (hx, hy, hz)) /\
     (forall x y z, In (x, y, z) source ->
        lx + margin <= x <= hx - margin /\
        ly + margin <= y <= hy - margin /\
        lz + margin <= z <= hz - margin) /\
     In (lx + margin) (map (fun p => fst (fst p)) source) /\
     In (ly + margin) (map (fun p => snd (fst p)) source) /\
     In (lz + margin) (map (fun p => snd p) source) /\
     In (hx - margin) (map (fun p => fst (fst p)) source) /\
     In (hy - margin) (map (fun p => snd (fst p)) source) /\
     In (hz - margin) (map (fun p => snd p) source)).
Proof.
  intros margin. split.
  - reflexivity.
  - intros Hne. unfold padded_bounds, min_axis0, max_axis0.
    destruct source as [|p0 source]; [contradiction|].
    set (pts := p0 :: source).
    destruct (amin (map (fun p => fst (fst p)) pts)) as [lx|] eqn:Hlx;
      [|discriminate Hlx].
    destruct (amin (map (fun p => snd (fst p)) pts)) as [ly|] eqn:Hly;
      [|discriminate Hly].
    destruct (amin (map (fun p => snd p) pts)) as [lz|] eqn:Hlz;
      [|discriminate Hlz].
    destruct (amax (map (fun p => fst (fst p)) pts)) as [hx|] eqn:Hhx;
      [|discriminate Hhx].
    destruct (amax (map (fun p => snd (fst p)) pts)) as [hy|] eqn:Hhy;
      [|discriminate Hhy].
    destruct (amax (map (fun p => snd p) pts)) as [hz|] eqn:Hhz;
      [|discriminate Hhz].
    cbn [bind v3_sub v3_add]. fold margin.
    destruct (amin_spec _ _ Hlx) as [Ilx Alx].
    destruct (amin_spec _ _ Hly) as [Ily Aly].
    destruct (amin_spec _ _ Hlz) as [Ilz Alz].
    destruct (amax_spec _ _ Hhx) as [Ihx Ahx].
    destruct (amax_spec _ _ Hhy) as [Ihy Ahy].
    destruct (amax_spec _ _ Hhz) as [Ihz Ahz].
    exists (lx - margin), (ly - margin), (lz - margin),
           (hx + margin), (hy + margin), (hz + margin).
    split; [reflexivity|]. split.
    + intros x y z Hin.
      rewrite Forall_forall in Alx, Aly, Alz, Ahx, Ahy, Ahz.
      pose proof (Alx x (in_map (fun p => fst (fst p)) _ _ Hin)).
      pose proof (Aly y (in_map (fun p => snd (fst p)) _ _ Hin)).
      pose proof (Alz z (in_map (fun p => snd p) _ _ Hin)).
      pose proof (Ahx x (in_map (fun p => fst (fst p)) _ _ Hin)).
      pose proof (Ahy y (in_map (fun p => snd (fst p)) _ _ Hin)).
      pose proof (Ahz z (in_map (fun p => snd p) _ _ Hin)).
      lra.
    + replace (lx - margin + margin) with lx by lra.
      replace (ly - margin + margin) with ly by lra.
      replace (lz - margin + margin) with lz by lra.
      replace (hx + margin - margin) with hx by lra.
      replace (hy + margin - margin) with hy by lra.
      replace (hz + margin - margin) with hz by lra.
      repeat split; assumption.
Qed.

(** X15.  [apply_field] on a field record whose two arrays have the same
    length never raises: it fits a second model whose right-hand side is
    exactly the stored displacements, and returns one displacement per
    target point together with the target moved by it. *)
Theorem apply_field_spec (self : DeformationPipeline.t) (data : field_data)
  (target : list vec3) :
  length (field_displacements data) = length (field_points data) ->
  exists rbf_2 deformed displacements,
    RBFCore.fit (RBFCore.__init__ (epsilon self) (smoothing self))
      (field_points data)
      (zip_with v3_add (field_points data) (field_displacements data))
    = (Ok tt, rbf_2) /\
    fit_b (field_points data)
      (zip_with v3_add (field_points data) (field_displacements data))
    = field_displacements data ++ repeat v3_zero 4 /\
    RBFCore.predict rbf_2 target = Ok (deformed, displacements) /\
    apply_field self data target = Ok (deformed, displacements) /\
    length displacements = length target /\
    deformed = zip_with v3_add target displacements.
Proof.
  intros Hlen. unfold apply_field, add.
  rewrite Hlen, Nat.eqb_refl. cbn [bind].
  set (fp := field_points data) in *.
  set (fd := field_displacements data) in *.
  assert (Hlen2 : length (zip_with v3_add fp fd) = length fp)
    by (rewrite zip_with_length, Hlen; apply Nat.min_id).
  destruct (RBFCore.fit _ fp (zip_with v3_add fp fd)) as [r rbf_2] eqn:Hfit.
  pose proof (fit_equal_length
                (RBFCore.__init__ (epsilon self) (smoothing self))
                fp (zip_with v3_add fp fd) Hlen2) as Hok.
  rewrite Hfit in Hok. injection Hok as -> Hrbf.
  destruct (predict_after_fit _ _ _ _ target Hfit)
    as (w & pw & _ & _ & _ & _ & _ & Hp).
  exists rbf_2. do 2 eexists.
  split; [reflexivity|]. split.
  - unfold fit_b. now rewrite zip_sub_add.
  - split; [exact Hp|]. split; [exact Hp|]. split; [|reflexivity].
    apply predicted_displacements_length.
Qed.

(** X17.  What [bake_field] returns can always be applied: the record holds
    at least one field point and one displacement per field point, so
    [apply_field] on it returns for every array of target points, with one
    result row per target point. *)
Theorem bake_then_apply (self : DeformationPipeline.t)
  (source_basis source_deformed : list vec3) (data : field_data) :
  bake_field self source_basis source_deformed = Some (Ok data) ->
  field_points data <> [] /\
  length (field_displacements data) = length (field_points data) /\
  forall target,
    exists deformed displacements,
      apply_field self data target = Ok (deformed, displacements) /\
      length displacements = length target /\
      length deformed = length target.
Proof.
  unfold bake_field.
  destruct (padded_bounds self source_basis) as [[bounds_min bounds_max]|e];
    [|discriminate].
  destruct (FieldGenerator.__init__ _ _) as [generator|e]; [|discriminate].
  destruct (FieldGenerator.generate _ _ _) as [[[points|e] after]|];
    try discriminate.
  destruct (length points =? 0)%nat eqn:Hempty; [discriminate|].
  destruct (RBFCore.fit _ _ _) as [[[]|e] rbf_1] eqn:Hfit; [|discriminate].
  destruct (predict_after_fit _ _ _ _ points Hfit)
    as (w & pw & _ & _ & _ & _ & _ & Hp).
  rewrite Hp. cbn [bind snd]. intros H; injection H as <-.
  cbn [field_points field_displacements].
  assert (Hlen : length (predicted_displacements rbf_1 source_basis w pw
                           points) = length points)
    by apply predicted_displacements_length.
  split; [intros ->; discriminate|]. split; [exact Hlen|].
  intros target. unfold apply_field, add.
  cbn [field_points field_displacements].
  rewrite Hlen, Nat.eqb_refl. cbn [bind].
  match goal with
  | |- context [RBFCore.fit ?s ?a ?b] =>
      destruct (RBFCore.fit s a b) as [r rbf_2] eqn:Hfit2;
      pose proof (fit_equal_length s a b) as Hok
  end.
  rewrite Hfit2 in Hok.
  assert (Hr : r = Ok tt).
  { assert (Hlen2 : length (zip_with v3_add points
                      (predicted_displacements rbf_1 source_basis w pw
                         points)) = length points)
      by (rewrite zip_with_length, Hlen; apply Nat.min_id).
    specialize (Hok Hlen2). now injection Hok. }
  subst r.
  destruct (predict_after_fit _ _ _ _ target Hfit2)
    as (w2 & pw2 & _ & _ & _ & _ & _ & Hp2).
  do 2 eexists. split; [exact Hp2|]. split.
  - apply predicted_displacements_length.
  - rewrite zip_with_length, predicted_displacements_length.
    apply Nat.min_id.
Qed.

End DeformationPipelineFurther.

(* ================================================================== *)
(** * Further properties of [SpatialUtils] *)
(* ================================================================== *)

Section SpatialUtilsFurther.
Context {L : Libs}.
Import SpatialUtils.

(** Whether [filter_points_by_distance] keeps a query point. *)
Definition within (self : SpatialUtils.t) (max_distance : R) (q : vec3)
  : bool :=
  Rleb (fst (kdtree_query (tree self) q)) max_distance.

Lemma filter_points_eq (self : SpatialUtils.t) (query_points : list vec3)
  (max_distance : R) :
  filter_points_by_distance self query_points max_distance
  = Ok (filter (within self max_distance) query_points,
        map (within self max_distance) query_points).
Proof.
  unfold filter_points_by_distance, find_nearest, bool_index.
  rewrite !map_map, length_map, Nat.eqb_refl; cbn [bind].
  fold (within self max_distance).
  induction query_points as [|q qs IH]; cbn [map select filter];
    [reflexivity|].
  injection IH as IH. destruct (within self max_distance q); now rewrite IH.
Qed.

Lemma filter_filter_narrow (A : Type) (f g : A -> bool) (l : list A) :
  (forall a, f a = true -> g a = true) ->
  filter f (filter g l) = filter f l.
Proof.
  intros Hfg; induction l as [|a l IH]; cbn [filter]; [reflexivity|].
  destruct (g a) eqn:Hg; cbn [filter].
  - now rewrite IH.
  - destruct (f a) eqn:Hf; [|exact IH].
    rewrite (Hfg a Hf) in Hg; discriminate.
Qed.

Lemma map_filter_true (A : Type) (f : A -> bool) (l : list A) :
  map f (filter f l) = repeat true (length (filter f l)).
Proof.
  induction l as [|a l IH]; cbn [filter]; [reflexivity|].
  destruct (f a) eqn:Hf; [|exact IH].
  cbn [map length repeat]. now rewrite Hf, IH.
Qed.

(** X5.  Filtering composes. With [d1 <= d2], filtering the points kept at
    [d2] by [d1] gives the points kept at [d1], which are among those kept
    at [d2]; filtering a result again with its own threshold keeps every
    point (the mask is all true); and the result has as many points as the
    mask has true entries. *)
Theorem filter_points_compose (self : SpatialUtils.t)
  (query_points kept1 kept2 : list vec3) (mask1 mask2 : list bool)
  (d1 d2 : R) :
  d1 <= d2 ->
  filter_points_by_distance self query_points d1 = Ok (kept1, mask1) ->
  filter_points_by_distance self query_points d2 = Ok (kept2, mask2) ->
  (exists mask, filter_points_by_distance self kept2 d1 = Ok (kept1, mask)) /\
  incl kept1 kept2 /\
  filter_points_by_distance self kept1 d1
    = Ok (kept1, repeat true (length kept1)) /\
  length kept1 = length (filter (fun m => m) mask1).
Proof.
  intros Hd H1 H2.
  rewrite filter_points_eq in H1, H2.
  injection H1 as <- <-. injection H2 as <- <-.
  assert (Hnarrow : forall q, within self d1 q = true ->
                              within self d2 q = true).
  { intros q. unfold within. rewrite !Rleb_true. lra. }
  split; [|split; [|split]].
  - rewrite filter_points_eq, filter_filter_narrow by exact Hnarrow. eauto.
  - intros q Hq. apply filter_In in Hq as [Hin Hq].
    apply filter_In. split; [exact Hin | now apply Hnarrow].
  - rewrite filter_points_eq, filter_filter_narrow by auto.
    now rewrite map_filter_true.
  - induction query_points as [|q qs IH]; cbn [filter map]; [reflexivity|].
    destruct (within self d1 q); cbn [length]; now rewrite IH.
Qed.

End SpatialUtilsFurther.

(* ================================================================== *)
(** * Further properties of the adaptive spacing *)
(* ================================================================== *)

Section AdaptiveSpacingFurther.
Import FieldGenerator.

(** The order on the results of [_get_adaptive_spacing]: integers by
    size, and every integer below [float('inf')]. *)
Definition spacing_le (a b : spacing) : Prop :=
  match a, b with
  | Cells m, Cells n => (m <= n)%Z
  | _, Infinite => True
  | Infinite, Cells _ => False
  end.

(** The level of the third branch. *)
Definition band_level (self : FieldGenerator.t) (d : R) : Z :=
  (Zfloor (sqrt (normalized_dist self d) * density_falloff self) + 1)%Z.

Lemma adaptive_spacing_band_value (self : FieldGenerator.t) (d : R) :
  min_dist self < d -> d <= surface_dist self ->
  0 <= density_falloff self ->
  _get_adaptive_spacing self d = Ok (Cells (2 ^ band_level self d)) /\
  (1 <= band_level self d <= Py.int (density_falloff self + 1))%Z.
Proof.
  intros Hmin Hsurf Hfall.
  pose proof (sqrt_normalized_range self d) as [Hlo Hhi].
  assert (Hpow : 0 <= sqrt (normalized_dist self d) * density_falloff self)
    by (apply Rmult_le_pos; assumption).
  assert (Hfloor : (0 <= Zfloor (sqrt (normalized_dist self d)
                                  * density_falloff self))%Z)
    by (apply Zfloor_lub; exact Hpow).
  split.
  - rewrite (adaptive_spacing_band self d Hmin Hsurf).
    rewrite py_int_nonneg by lra.
    rewrite (Zfloor_addz 1). fold (band_level self d).
    unfold Py.shl1.
    destruct (band_level self d <? 0)%Z eqn:Hneg;
      [apply Z.ltb_lt in Hneg; unfold band_level in Hneg; lia|].
    cbn [bind]. now rewrite Z.shiftl_1_l.
  - unfold band_level. split; [lia|].
    rewrite py_int_nonneg by lra.
    rewrite (Zfloor_addz 1).
    assert (Zfloor (sqrt (normalized_dist self d) * density_falloff self)
            <= Zfloor (density_falloff self))%Z; [|lia].
    apply Zfloor_le. nra.
Qed.

(** X6.  Inside the band, with a non-negative [density_falloff], the spacing
    is a power of two between 2 and the size of a root cell of [generate],
    [2 ^ int(density_falloff + 1)]: a root cell is never smaller than the
    spacing asked for. *)
Theorem adaptive_spacing_bounds (self : FieldGenerator.t) (d : R) :
  min_dist self < d -> d <= surface_dist self ->
  0 <= density_falloff self ->
  exists level,
    _get_adaptive_spacing self d = Ok (Cells (2 ^ level)) /\
    (1 <= level <= Py.int (density_falloff self + 1))%Z /\
    (2 <= 2 ^ level <= 2 ^ Py.int (density_falloff self + 1))%Z.
Proof.
  intros Hmin Hsurf Hfall.
  destruct (adaptive_spacing_band_value self d Hmin Hsurf Hfall)
    as [Hval [Hlo Hhi]].
  exists (band_level self d). split; [exact Hval|]. split; [lia|]. split.
  - change 2%Z with (2 ^ 1)%Z at 1. apply Z.pow_le_mono_r; lia.
  - apply Z.pow_le_mono_r; lia.
Qed.

Lemma normalized_dist_monotone (self : FieldGenerator.t) (d1 d2 : R) :
  0 <= inv_max_min_diff self -> d1 <= d2 ->
  normalized_dist self d1 <= normalized_dist self d2.
Proof.
  intros Hinv Hd. unfold normalized_dist.
  rewrite !py_min_Rmin, !py_max_Rmax.
  assert (H : (d1 - min_dist self) * inv_max_min_diff self
              <= (d2 - min_dist self) * inv_max_min_diff self) by nra.
  apply Rle_min_compat_l. apply Rle_max_compat_l. exact H.
Qed.

Lemma inv_of_pos (max_dist min_dist : R) : 0 < inv_of max_dist min_dist.
Proof.
  unfold inv_of. destruct (Rgtb max_dist min_dist) eqn:H; [|lra].
  apply Rgtb_true in H. apply Rdiv_lt_0_compat; lra.
Qed.

(** X7.  The spacing never decreases with the distance: for an instance
    built by [__init__] with a non-negative [density_falloff], a larger
    distance gives a cell size at least as large (and infinity beyond
    [surface_dist]). *)
Theorem adaptive_spacing_monotone (sp : SpatialUtils.t) (params : Py.dict)
  (self : FieldGenerator.t) (d1 d2 : R) :
  FieldGenerator.__init__ sp params = Ok self ->
  0 <= density_falloff self ->
  d1 <= d2 ->
  exists s1 s2,
    _get_adaptive_spacing self d1 = Ok s1 /\
    _get_adaptive_spacing self d2 = Ok s2 /\
    spacing_le s1 s2.
Proof.
  intros Hinit Hfall Hd.
  assert (Hinv : 0 <= inv_max_min_diff self).
  { rewrite init_ok in Hinit. injection Hinit as <-.
    cbn [inv_max_min_diff]. apply Rlt_le, inv_of_pos. }
  clear Hinit.
  assert (Hfar : forall d, min_dist self < d -> surface_dist self < d ->
                           _get_adaptive_spacing self d = Ok Infinite).
  { intros d H1 H2. unfold _get_adaptive_spacing.
    replace (Rleb d (min_dist self)) with false
      by (symmetry; now apply Rleb_false).
    replace (Rgtb d (surface_dist self)) with true; [reflexivity|].
    symmetry; now apply Rgtb_true. }
  assert (Hnear : forall d, d <= min_dist self ->
                            _get_adaptive_spacing self d = Ok (Cells 0)).
  { intros d H1. unfold _get_adaptive_spacing.
    replace (Rleb d (min_dist self)) with true; [reflexivity|].
    symmetry; now apply Rleb_true. }
  destruct (Rle_dec d1 (min_dist self)) as [H1|H1].
  - exists (Cells 0). rewrite (Hnear d1 H1).
    destruct (Rle_dec d2 (min_dist self)) as [H2|H2].
    + exists (Cells 0). rewrite (Hnear d2 H2).
      repeat split; cbn; lia.
    + destruct (Rle_dec d2 (surface_dist self)) as [H3|H3].
      * destruct (adaptive_spacing_band_value self d2) as [Hv _];
          [lra | lra | exact Hfall |].
        exists (Cells (2 ^ band_level self d2)). rewrite Hv.
        repeat split. cbn. apply Z.pow_nonneg. lia.
      * exists Infinite. rewrite Hfar by lra. repeat split.
  - destruct (Rle_dec d1 (surface_dist self)) as [H2|H2].
    + destruct (adaptive_spacing_band_value self d1) as [Hv1 [Hl1 _]];
        [lra | lra | exact Hfall |].
      exists (Cells (2 ^ band_level self d1)). rewrite Hv1.
      destruct (Rle_dec d2 (surface_dist self)) as [H3|H3].
      * destruct (adaptive_spacing_band_value self d2) as [Hv2 _];
          [lra | lra | exact Hfall |].
        exists (Cells (2 ^ band_level self d2)). rewrite Hv2.
        repeat split. cbn. apply Z.pow_le_mono_r; [lia|].
        unfold band_level.
        assert (Zfloor (sqrt (normalized_dist self d1)
                        * density_falloff self)
                <= Zfloor (sqrt (normalized_dist self d2)
                           * density_falloff self))%Z; [|lia].
        apply Zfloor_le. apply Rmult_le_compat_r; [exact Hfall|].
        apply sqrt_le_1_alt. now apply normalized_dist_monotone.
      * exists Infinite. rewrite Hfar by lra. repeat split.
    + exists Infinite, Infinite. rewrite !Hfar by lra. repeat split.
Qed.

End AdaptiveSpacingFurther.

(* ================================================================== *)
(** * Further properties of [FieldGenerator.generate] *)
(* ================================================================== *)

Section GenerateFurther.
Context {L : Libs}.
Import FieldGenerator.

(** [self'] is [self] with new points appended, each of them in [P]. *)
Definition emits (P : vec3 -> Prop) (self self' : FieldGenerator.t) : Prop :=
  exists new,
    self' = set_points self (generated_points self ++ new) /\ Forall P new.

Lemma emits_refl (P : vec3 -> Prop) (self : FieldGenerator.t) :
  emits P self self.
Proof.
  exists []; split; [|constructor].
  rewrite app_nil_r; destruct self; reflexivity.
Qed.

Lemma emits_trans (P : vec3 -> Prop) (s1 s2 s3 : FieldGenerator.t) :
  emits P s1 s2 -> emits P s2 s3 -> emits P s1 s3.
Proof.
  intros [n1 [-> H1]] [n2 [-> H2]]; exists (n1 ++ n2); split.
  - unfold set_points; simpl. now rewrite app_assoc.
  - apply Forall_app; split; auto.
Qed.

Lemma emits_base_spacing (P : vec3 -> Prop) (s s' : FieldGenerator.t) :
  emits P s s' -> base_spacing s' = base_spacing s.
Proof. intros [new [-> _]]; reflexivity. Qed.

Lemma for_each_emits (P : vec3 -> Prop) (sp : R) (A : Type) (l : list A)
  (body : A -> FieldGenerator.t -> call unit) :
  (forall a s r s', In a l -> base_spacing s = sp ->
                    body a s = Some (r, s') -> emits P s s') ->
  forall s r s', base_spacing s = sp ->
                 for_each l body s = Some (r, s') -> emits P s s'.
Proof.
  induction l as [|a l IH]; intros Hbody s r s' Hs Hrun; cbn in Hrun.
  - injection Hrun as <- <-; apply emits_refl.
  - destruct (body a s) as [[[[]|e] s1]|] eqn:Hb; try discriminate.
    + assert (H1 : emits P s s1)
        by (eapply Hbody; [left; reflexivity | exact Hs | exact Hb]).
      apply emits_trans with s1; [exact H1|].
      eapply IH; [| |exact Hrun].
      * intros; eapply Hbody; [right| |]; eauto.
      * rewrite (emits_base_spacing P s s1 H1). exact Hs.
    + injection Hrun as <- <-.
      eapply Hbody; [left; reflexivity | exact Hs | exact Hb].
Qed.


Lemma offsets_range (dx dy dz : Z) :
  In (dx, dy, dz) offsets ->
  (0 <= dx <= 1 /\ 0 <= dy <= 1 /\ 0 <= dz <= 1)%Z.
Proof.
  cbv [offsets flat_map map app]. intros H.
  repeat (destruct H as [H|H]; [injection H as <- <- <-; lia|]).
  contradiction.
Qed.

Lemma range0_elements (stop step x : Z) :
  (0 <= step)%Z -> In x (Py.range0 stop step) ->
  exists i, (0 <= i)%Z /\ x = (i * step)%Z.
Proof.
  intros Hstep. unfold Py.range0.
  destruct (stop <=? 0)%Z; [contradiction|].
  rewrite in_map_iff. intros [n [<- _]].
  exists (Z.of_nat n). split; [lia | reflexivity].
Qed.

Lemma shl1_ok (n size : Z) :
  Py.shl1 n = Ok size -> (0 <= n)%Z /\ size = (2 ^ n)%Z /\ (1 <= size)%Z.
Proof.
  unfold Py.shl1. destruct (n <? 0)%Z eqn:Hn; [discriminate|].
  apply Z.ltb_ge in Hn. intros H; injection H as <-.
  rewrite Z.shiftl_1_l. repeat split; [exact Hn|].
  pose proof (Z.pow_pos_nonneg 2 n). lia.
Qed.

(** The points [origin + k * (s / 2)] of the grid of half steps anchored
    at [origin], with an index [k >= 1] on every axis. *)
Definition on_half_grid (origin : vec3) (s : R) (p : vec3) : Prop :=
  let '(ox, oy, oz) := origin in
  exists kx ky kz : Z,
    (1 <= kx /\ 1 <= ky /\ 1 <= kz)%Z /\
    p = (ox + IZR kx * (s / 2), oy + IZR ky * (s / 2), oz + IZR kz * (s / 2)).

Lemma process_cell_fuel_grid (ox oy oz sp : R) (fuel : nat) :
  forall self x y z cell_size level max_level r self' ix iy iz,
    base_spacing self = sp ->
    x = ox + IZR ix * sp -> y = oy + IZR iy * sp -> z = oz + IZR iz * sp ->
    (0 <= ix /\ 0 <= iy /\ 0 <= iz)%Z -> (1 <= cell_size)%Z ->
    process_cell_fuel fuel self x y z cell_size level max_level
    = Some (r, self') ->
    emits (on_half_grid (ox, oy, oz) sp) self self'.
Proof.
  induction fuel as [|fuel IH];
    intros self x y z cs lvl ml r self' ix iy iz Hsp Hx Hy Hz Hi Hcs;
    cbn [process_cell_fuel]; destruct (amin _) as [m|e];
    try (intros H; injection H as <- <-; apply emits_refl);
    (destruct (Rgtb m (surface_dist self));
     [intros H; injection H as <- <-; apply emits_refl|]);
    (destruct (_get_adaptive_spacing self m) as [a|e];
     [|intros H; injection H as <- <-; apply emits_refl]);
    (destruct (size_gt cs a && (lvl <? ml)%Z);
     [destruct (0 <? cs / 2)%Z eqn:Hhalf;
      [|intros H; injection H as <- <-; apply emits_refl]
     |cbn [SpatialUtils.find_nearest map fst];
      destruct (Rleb _ _);
      intros H; injection H as <- <-; [|apply emits_refl]]).
  - discriminate.
  - exists [cell_center self x y z cs]. split; [reflexivity|].
    constructor; [|constructor].
    exists (2 * ix + cs)%Z, (2 * iy + cs)%Z, (2 * iz + cs)%Z.
    split; [lia|]. unfold cell_center. rewrite Hsp, Hx, Hy, Hz.
    rewrite !plus_IZR, !mult_IZR. f_equal; [f_equal|]; field.
  - apply Z.ltb_lt in Hhalf.
    apply (for_each_emits _ sp); [|exact Hsp].
    intros [[dx dy] dz] s r0 s0 Hd Hs.
    destruct (offsets_range dx dy dz Hd) as (Hdx & Hdy & Hdz).
    cbn [offset_point]. rewrite Hs.
    apply (IH s _ _ _ _ _ _ r0 s0
             (ix + dx * (cs / 2))%Z (iy + dy * (cs / 2))%Z
             (iz + dz * (cs / 2))%Z); try assumption.
    + rewrite Hx, plus_IZR. ring.
    + rewrite Hy, plus_IZR. ring.
    + rewrite Hz, plus_IZR. ring.
    + nia.
    + lia.
  - exists [cell_center self x y z cs]. split; [reflexivity|].
    constructor; [|constructor].
    exists (2 * ix + cs)%Z, (2 * iy + cs)%Z, (2 * iz + cs)%Z.
    split; [lia|]. unfold cell_center. rewrite Hsp, Hx, Hy, Hz.
    rewrite !plus_IZR, !mult_IZR. f_equal; [f_equal|]; field.
Qed.

(** Every coordinate of [p] is at least [s / 2] above that of [origin]
    ([above_min]), or at least [- s / 2] below it ([below_min]). *)
Definition above_min (origin : vec3) (s : R) (p : vec3) : Prop :=
  let '(ox, oy, oz) := origin in
  let '(px, py, pz) := p in
  ox + s / 2 <= px /\ oy + s / 2 <= py /\ oz + s / 2 <= pz.

Definition below_min (origin : vec3) (s : R) (p : vec3) : Prop :=
  let '(ox, oy, oz) := origin in
  let '(px, py, pz) := p in
  px <= ox + s / 2 /\ py <= oy + s / 2 /\ pz <= oz + s / 2.

Lemma half_grid_side (origin : vec3) (s : R) (p : vec3) :
  on_half_grid origin s p ->
  (0 < s -> above_min origin s p) /\ (s < 0 -> below_min origin s p).
Proof.
  destruct origin as [[ox oy] oz]. cbn [on_half_grid].
  intros (kx & ky & kz & (Hx & Hy & Hz) & ->).
  apply IZR_le in Hx, Hy, Hz.
  split; intros Hs; cbn [above_min below_min]; repeat split; nra.
Qed.

(** X8.  Every point that [generate] returns lies on the grid of half steps
    ([base_spacing / 2]) anchored at [bounds_min], with an index of at
    least 1 on every axis.  With a positive [base_spacing] the point is
    therefore at least half a step above [bounds_min] on every axis; with
    a negative one it is at least half a step below it. *)
Theorem generate_on_half_grid (self self' : FieldGenerator.t)
  (bounds_min bounds_max : vec3) (points : list vec3) :
  generate self bounds_min bounds_max = Some (Ok points, self') ->
  forall p, In p points ->
    on_half_grid bounds_min (base_spacing self) p /\
    (0 < base_spacing self -> above_min bounds_min (base_spacing self) p) /\
    (base_spacing self < 0 -> below_min bounds_min (base_spacing self) p).
Proof.
  intros Hgen p Hin.
  assert (Hgrid : on_half_grid bounds_min (base_spacing self) p);
    [|split; [exact Hgrid | now apply half_grid_side]].
  revert Hgen p Hin.
  unfold generate.
  destruct (Py.shl1 _) as [ics|e] eqn:Hshl; [|discriminate].
  destruct (shl1_ok _ _ Hshl) as (_ & _ & Hics).
  assert (Hstep : (0 <= ics)%Z) by lia.
  destruct bounds_min as [[sx sy] sz].
  destruct (v3_sub bounds_max (sx, sy, sz)) as [[dx dy] dz].
  destruct (bind _ _) as [[[steps_x steps_y] steps_z]|e]; [|discriminate].
  destruct (for_each _ _ _) as [[[[]|e] s1]|] eqn:Hloops; try discriminate.
  intros H; injection H as <- <-.
  assert (Hem : emits (on_half_grid (sx, sy, sz) (base_spacing self))
                  (reset self) s1).
  { eapply (for_each_emits _ (base_spacing self)); [|reflexivity|exact Hloops].
    intros z s r s' Hz Hs.
    destruct (range0_elements _ _ _ Hstep Hz) as [iz [Hiz _]].
    apply (for_each_emits _ (base_spacing self)); [|exact Hs].
    intros y s0 r0 s0' Hy Hs0.
    destruct (range0_elements _ _ _ Hstep Hy) as [iy [Hiy _]].
    apply (for_each_emits _ (base_spacing self)); [|exact Hs0].
    intros x s2 r2 s2' Hx Hs2.
    destruct (range0_elements _ _ _ Hstep Hx) as [ix [Hix _]].
    unfold _process_cell.
    apply (process_cell_fuel_grid sx sy sz (base_spacing self) _ s2
             _ _ _ _ _ _ r2 s2' x y z); try assumption.
    - now rewrite Hs2.
    - now rewrite Hs0.
    - now rewrite Hs.
    - destruct (range0_elements _ _ _ Hstep Hx) as [jx [Hjx ->]].
      destruct (range0_elements _ _ _ Hstep Hy) as [jy [Hjy ->]].
      destruct (range0_elements _ _ _ Hstep Hz) as [jz [Hjz ->]].
      nia. }
  destruct Hem as [new [-> Hnew]]. cbn.
  intros p Hin. rewrite Forall_forall in Hnew. now apply Hnew.
Qed.

End GenerateFurther.

(* ================================================================== *)
(** * Outcomes of [FieldGenerator.generate] *)
(* ================================================================== *)

Section GenerateOutcomes.
Context {L : Libs}.
Import FieldGenerator.

Lemma shl1_nonneg (n : Z) : (0 <= n)%Z -> Py.shl1 n = Ok (2 ^ n)%Z.
Proof.
  intros Hn. unfold Py.shl1.
  destruct (n <? 0)%Z eqn:H; [apply Z.ltb_lt in H; lia|].
  now rewrite Z.shiftl_1_l.
Qed.

Lemma shl1_negative (n : Z) :
  (n < 0)%Z -> Py.shl1 n = Raise (ValueError "negative shift count").
Proof.
  intros Hn. unfold Py.shl1.
  destruct (n <? 0)%Z eqn:H; [reflexivity | apply Z.ltb_ge in H; lia].
Qed.



(** X10.  The two parameters [generate] does not validate. A
    [density_falloff] of -2 or less makes [1 << max_level] raise before
    anything else happens; otherwise a [base_grid_spacing] of zero makes the
    first [ceil] raise. In both cases the instance is left with an empty
    output list. *)
Theorem generate_bad_parameters (self : FieldGenerator.t)
  (bounds_min bounds_max : vec3) :
  (density_falloff self <= -2 ->
   generate self bounds_min bounds_max
   = Some (Raise (ValueError "negative shift count"), reset self)) /\
  (-2 < density_falloff self -> base_spacing self = 0 ->
   generate self bounds_min bounds_max
   = Some (Raise (if Reqb (fst (fst bounds_max) - fst (fst bounds_min)) 0
                  then ValueError "cannot convert float NaN to integer"
                  else OverflowError
                         "cannot convert float infinity to integer"),
           reset self)).
Proof.
  split.
  - intros Hfall. unfold generate.
    rewrite shl1_negative; [reflexivity|].
    cbn [density_falloff reset].
    destruct (Z_lt_le_dec (Py.int (density_falloff self + 1)) 0) as [|Hge];
      [assumption|].
    apply py_int_nonneg_iff in Hge. lra.
  - intros Hfall Hsp. unfold generate.
    rewrite shl1_nonneg
      by (apply py_int_nonneg_iff; cbn [density_falloff reset]; lra).
    destruct bounds_min as [[sx sy] sz], bounds_max as [[mx my] mz].
    cbn [v3_sub fst]. unfold steps at 1. cbn [base_spacing reset].
    replace (Reqb (base_spacing self) 0) with true
      by (symmetry; unfold Reqb; destruct (Req_dec_T _ _); tauto).
    destruct (Reqb (mx - sx) 0); reflexivity.
Qed.


End GenerateOutcomes.

(* ================================================================== *)
(** * Cells that [_process_cell] discards *)
(* ================================================================== *)

Section GeneratePruning.
Context {L : Libs}.
Import FieldGenerator.





End GeneratePruning.

Section BakeFieldFurther.
Context {L : Libs}.
Import DeformationPipeline.


End BakeFieldFurther.

(* ================================================================== *)
(** * Worked examples on the reference libraries *)
(* ================================================================== *)

(** Decide the comparisons of closed scalars that block evaluation. *)
Ltac r_decide :=
  repeat match goal with
  | |- context [Rltb ?a ?b] =>
      first [ replace (Rltb a b) with true
                by (symmetry; apply Rltb_true; lra)
            | replace (Rltb a b) with false
                by (symmetry; apply Rltb_false; lra) ]
  | |- context [Rleb ?a ?b] =>
      first [ replace (Rleb a b) with true
                by (symmetry; apply Rleb_true; lra)
            | replace (Rleb a b) with false
                by (symmetry; apply Rleb_false; lra) ]
  | |- context [Reqb ?a ?b] =>
      first [ replace (Reqb a b) with true
                by (symmetry; apply Reqb_true; lra)
            | replace (Reqb a b) with false
                by (symmetry; apply Reqb_false; lra) ]
  end.

(** Evaluate everything but the operations on scalars. *)
Ltac r_eval :=
  cbv - [Rplus Rminus Rmult Rdiv Rinv Ropp sqrt IZR pow Rltb Rleb Reqb Rgtb
         Rmin Rmax Zfloor Zceil Py.int Py.ceil].


Module Examples.
Import RBFCore.

(** A solver with [epsilon = 0.5] and no smoothing, as the tests build it. *)
Definition rbf0 : RBFCore.t := RBFCore.__init__ (1 / 2) 0.

(** Two control points, the second of which moves: a singular system. *)
Definition source2 : list vec3 := [(0, 0, 0); (1, 0, 0)].
Definition target2 : list vec3 := [(0, 0, 0); (2, 0, 0)].

(** The corners of a tetrahedron, translated by (1, 0, 0). *)
Definition source4 : list vec3 := [(0, 0, 0); (1, 0, 0); (0, 1, 0); (0, 0, 1)].
Definition target4 : list vec3 := [(1, 0, 0); (2, 0, 0); (1, 1, 0); (1, 0, 1)].


(** A pipeline over a single source vertex: one root cell, not split. *)
Definition params0 : Py.dict :=
  [("base_grid_spacing"%string, 1); ("surface_distance"%string, 10);
   ("density_falloff"%string, 0); ("bbox_margin"%string, 1 / 2)].
Definition source0 : list vec3 := [(0, 0, 0)].
Definition deformed0 : list vec3 := [(1, 0, 0)].
Definition pipeline0 : DeformationPipeline.t :=
  DeformationPipeline.__init__ params0.
Definition generator0 : FieldGenerator.t :=
  FieldGenerator.mk (SpatialUtils.__init__ source0) 1 10 (2 / 10) (5 / 1000) 0
    (1 / (2 / 10 - 5 / 1000)) [] [].
Definition bounds_min0 : vec3 := (0 - 1 / 2, 0 - 1 / 2, 0 - 1 / 2).
Definition bounds_max0 : vec3 := (0 + 1 / 2, 0 + 1 / 2, 0 + 1 / 2).
Definition center0 : vec3 :=
  FieldGenerator.cell_center generator0
    (0 - 1 / 2 + 0 * 1) (0 - 1 / 2 + 0 * 1) (0 - 1 / 2 + 0 * 1) 2.

Lemma init0 :
  FieldGenerator.__init__ (SpatialUtils.__init__ source0) params0
  = Ok generator0.
Proof.
  rewrite init_ok. unfold inv_of. r_eval. unfold Rgtb. r_decide.
  reflexivity.
Qed.

Lemma bounds0 :
  DeformationPipeline.padded_bounds pipeline0 source0
  = Ok (bounds_min0, bounds_max0).
Proof. r_eval. reflexivity. Qed.

Lemma generate0 :
  @FieldGenerator.generate Reference.libs generator0 bounds_min0 bounds_max0
  = Some (Ok [center0], FieldGenerator.append_point generator0 center0).
Proof.
  unfold FieldGenerator.generate, bounds_min0, bounds_max0.
  cbn [FieldGenerator.reset generator0 FieldGenerator.density_falloff v3_sub].
  replace (0 + 1) with 1 by lra. rewrite py_int_IZR.
  cbn [Py.shl1 Z.ltb Z.compare Z.shiftl Pos.iter Z.mul Pos.mul].
  unfold FieldGenerator.steps.
  change (FieldGenerator.reset generator0) with generator0.
  cbn [FieldGenerator.base_spacing generator0].
  r_decide.
  replace (Py.ceil ((0 + 1 / 2 - (0 - 1 / 2)) / 1)) with 1%Z
    by (symmetry; apply Zceil_eq; split; lra).
  cbn [bind Z.add Pos.add].
  change (Py.range0 2 2) with [0%Z].
  cbn [FieldGenerator.for_each].
  unfold FieldGenerator._process_cell.
  cbn [FieldGenerator.base_spacing].
  erewrite process_cell_leaf.
  - reflexivity.
  - r_eval. reflexivity.
  - cbn [FieldGenerator.surface_dist generator0].
    eapply Rle_trans; [apply Rmin_r|]. apply sqrt_le_bound; lra.
  - rewrite adaptive_spacing_band.
    + cbn [FieldGenerator.density_falloff generator0].
      match goal with
      | |- context [Py.int ?e] => replace e with 1 by lra
      end.
      rewrite py_int_IZR. reflexivity.
    + cbn [FieldGenerator.min_dist generator0].
      repeat apply Rmin_glb_lt; apply sqrt_gt_bound; lra.
    + cbn [FieldGenerator.surface_dist generator0].
      eapply Rle_trans; [apply Rmin_r|]. apply sqrt_le_bound; lra.
  - reflexivity.
  - r_eval. apply sqrt_le_bound; lra.
Qed.

(** The default parameters, and the defaults with a negative falloff. *)
Definition origin_index : SpatialUtils.t := SpatialUtils.__init__ source0.
Definition default_generator : FieldGenerator.t :=
  FieldGenerator.mk origin_index (2 / 100) (1 / 10) (2 / 10) (5 / 1000) 3
    (1 / (2 / 10 - 5 / 1000)) [] [].
Definition steep_generator : FieldGenerator.t :=
  FieldGenerator.mk origin_index (2 / 100) (1 / 10) (2 / 10) (5 / 1000) (-3)
    (1 / (2 / 10 - 5 / 1000)) [] [].

Lemma default_init :
  FieldGenerator.__init__ origin_index [] = Ok default_generator.
Proof.
  rewrite init_ok. unfold inv_of. r_eval. unfold Rgtb. r_decide.
  reflexivity.
Qed.





End Examples.

(* ================================================================== *)
(** * The theorems at the examples *)
(* ================================================================== *)

Import Examples.
#[local] Existing Instance Reference.libs.




(** C4 at the single-vertex source: the emitted centre is within range. *)
Lemma generate_within_surface_distance_witness :
  exists d,
    fst (@SpatialUtils.find_nearest Reference.libs
           (FieldGenerator.spatial generator0) [center0]) = [d] /\
    d <= FieldGenerator.surface_dist generator0.
Proof.
  apply (@generate_within_surface_distance Reference.libs generator0
           (FieldGenerator.append_point generator0 center0)
           bounds_min0 bounds_max0 [center0]).
  - exact generate0.
  - left; reflexivity.
Defined.

(** C5 at the single-vertex source: [bake_field] returns the one field
    point with its predicted displacement. *)
Lemma bake_field_spec_witness :
  exists rbf_1 deformed displacements,
    @RBFCore.fit Reference.libs
      (RBFCore.__init__ (DeformationPipeline.epsilon pipeline0)
                        (DeformationPipeline.smoothing pipeline0))
      source0 deformed0 = (Ok tt, rbf_1) /\
    RBFCore.predict rbf_1 [center0] = Ok (deformed, displacements) /\
    DeformationPipeline.bake_field pipeline0 source0 deformed0
      = Some (Ok (DeformationPipeline.mk_field_data [center0] displacements)).
Proof.
  apply (proj2 (@bake_field_spec Reference.libs pipeline0 source0 deformed0
                  bounds_min0 bounds_max0 generator0 bounds0 init0)
           center0 [] (FieldGenerator.append_point generator0 center0)).
  - exact generate0.
  - reflexivity.
Defined.

(** C6 at the two control points: after [fit], [predict] returns. *)
Lemma predict_requires_fit_witness :
  exists deformed displacements,
    RBFCore.predict
      (snd (@RBFCore.fit Reference.libs rbf0 source2 target2))
      [(1 / 2, 0, 0)]
    = Ok (deformed, displacements).
Proof.
  apply (proj2 (proj2 (@predict_requires_fit Reference.libs rbf0
                         (snd (@RBFCore.fit Reference.libs rbf0
                                 source2 target2))
                         source2 target2 [(1 / 2, 0, 0)]))).
  rewrite (fit_equal_length rbf0 source2 target2 eq_refl). reflexivity.
Defined.

(** An instance that still holds the arrays of an earlier fit. *)
Definition stale_rbf : RBFCore.t :=
  RBFCore.mk (1 / 2) 0 (Some [v3_zero]) (Some []) (Some source2).

(** C9 at the single-vertex source: a second [generate] on the instance
    that the first call left returns the same single point. *)
Lemma generate_resets_output_witness :
  @FieldGenerator.generate Reference.libs
    (FieldGenerator.append_point generator0 center0) bounds_min0 bounds_max0
  = Some (Ok [center0], FieldGenerator.append_point generator0 center0).
Proof.
  apply (proj1 (@generate_resets_output Reference.libs generator0
                  (FieldGenerator.append_point generator0 center0)
                  bounds_min0 bounds_max0 (Ok [center0]) generate0)).
Defined.

(* ================================================================== *)
(** * Further examples *)
(* ================================================================== *)

(** X1 at the translated tetrahedron and one query. *)
Lemma fit_postcondition_witness :
  exists w pw deformed displacements,
    RBFCore.weights (snd (@RBFCore.fit Reference.libs rbf0 source4 target4))
      = Some w /\
    RBFCore.polynomial_weights (snd (RBFCore.fit rbf0 source4 target4))
      = Some pw /\
    RBFCore.control_points (snd (RBFCore.fit rbf0 source4 target4))
      = Some source4 /\
    RBFCore.epsilon (snd (RBFCore.fit rbf0 source4 target4))
      = RBFCore.epsilon rbf0 /\
    RBFCore.smoothing (snd (RBFCore.fit rbf0 source4 target4))
      = RBFCore.smoothing rbf0 /\
    length w = length source4 /\ length pw = 4%nat /\
    RBFCore.predict (snd (RBFCore.fit rbf0 source4 target4)) [(1 / 2, 0, 0)]
      = Ok (deformed, displacements) /\
    length displacements = length [(1 / 2, 0, 0)] /\
    deformed = zip_with v3_add [(1 / 2, 0, 0)] displacements.
Proof.
  apply (@fit_postcondition Reference.libs rbf0
           (snd (@RBFCore.fit Reference.libs rbf0 source4 target4))
           source4 target4 [(1 / 2, 0, 0)]).
  rewrite (fit_equal_length rbf0 source4 target4 eq_refl). reflexivity.
Defined.

(** A single field point at the origin that moves by (1, 0, 0). *)
Definition field0 : DeformationPipeline.field_data :=
  DeformationPipeline.mk_field_data [(0, 0, 0)] [(1, 0, 0)].

(** X15 at the one-point field and one target vertex. *)
Lemma apply_field_spec_witness :
  exists rbf_2 deformed displacements,
    @RBFCore.fit Reference.libs
      (RBFCore.__init__ (DeformationPipeline.epsilon pipeline0)
                        (DeformationPipeline.smoothing pipeline0))
      (DeformationPipeline.field_points field0)
      (zip_with v3_add (DeformationPipeline.field_points field0)
                       (DeformationPipeline.field_displacements field0))
    = (Ok tt, rbf_2) /\
    fit_b (DeformationPipeline.field_points field0)
      (zip_with v3_add (DeformationPipeline.field_points field0)
                       (DeformationPipeline.field_displacements field0))
    = DeformationPipeline.field_displacements field0 ++ repeat v3_zero 4 /\
    RBFCore.predict rbf_2 [(2, 0, 0)] = Ok (deformed, displacements) /\
    DeformationPipeline.apply_field pipeline0 field0 [(2, 0, 0)]
      = Ok (deformed, displacements) /\
    length displacements = length [(2, 0, 0)] /\
    deformed = zip_with v3_add [(2, 0, 0)] displacements.
Proof.
  apply (@apply_field_spec Reference.libs pipeline0 field0 [(2, 0, 0)]).
  reflexivity.
Defined.




(** [bake_field] on the single-vertex source returns a field. *)
Lemma bake0 :
  exists data,
    @DeformationPipeline.bake_field Reference.libs pipeline0 source0 deformed0
    = Some (Ok data).
Proof.
  unfold DeformationPipeline.bake_field.
  rewrite bounds0.
  change (DeformationPipeline.params pipeline0) with params0.
  rewrite init0, generate0. cbn [length Nat.eqb].
  destruct (RBFCore.fit _ source0 deformed0) as [r rbf_1] eqn:Hfit.
  assert (r = Ok tt) as ->
    by (rewrite (fit_equal_length _ source0 deformed0 eq_refl) in Hfit;
        now injection Hfit).
  destruct (predict_after_fit _ rbf_1 source0 deformed0 [center0] Hfit)
    as (w & pw & _ & _ & _ & _ & _ & ->).
  cbn [bind snd]. eauto.
Qed.

(** X17 on the single-vertex source. *)
Lemma bake_then_apply_witness :
  exists data,
    @DeformationPipeline.bake_field Reference.libs pipeline0 source0 deformed0
    = Some (Ok data) /\
    DeformationPipeline.field_points data <> [] /\
    length (DeformationPipeline.field_displacements data)
    = length (DeformationPipeline.field_points data) /\
    forall target,
      exists deformed displacements,
        DeformationPipeline.apply_field pipeline0 data target
        = Ok (deformed, displacements) /\
        length displacements = length target /\
        length deformed = length target.
Proof.
  destruct bake0 as [data Hdata]. exists data. split; [exact Hdata|].
  apply (@bake_then_apply Reference.libs pipeline0 source0 deformed0 data).
  exact Hdata.
Defined.

(** Two query points, at distances 0 and 3 from the indexed origin. *)
Definition queries0 : list vec3 := [(0, 0, 0); (3, 0, 0)].

Lemma filter0 (d : R) :
  0 <= d -> d < 3 ->
  @SpatialUtils.filter_points_by_distance Reference.libs origin_index
    queries0 d
  = Ok ([(0, 0, 0)], [true; false]).
Proof.
  intros Hlo Hhi. rewrite filter_points_eq.
  unfold queries0. cbn [filter map]. unfold within.
  replace (Rleb (fst (kdtree_query _ (0, 0, 0))) d) with true.
  - replace (Rleb (fst (kdtree_query _ (3, 0, 0))) d) with false;
      [reflexivity|].
    symmetry. apply Rleb_false. r_eval.
    apply sqrt_gt_bound; [exact Hlo | nra].
  - symmetry. apply Rleb_true. r_eval.
    eapply Rle_trans; [|exact Hlo]. apply sqrt_le_bound; lra.
Qed.

(** X5 at the thresholds 1 and 2. *)
Lemma filter_points_compose_witness :
  (exists mask,
     @SpatialUtils.filter_points_by_distance Reference.libs origin_index
       [(0, 0, 0)] 1 = Ok ([(0, 0, 0)], mask)) /\
  incl [(0, 0, 0)] [(0, 0, 0)] /\
  @SpatialUtils.filter_points_by_distance Reference.libs origin_index
    [(0, 0, 0)] 1 = Ok ([(0, 0, 0)], repeat true (length [(0, 0, 0)])) /\
  length [(0, 0, 0)] = length (filter (fun m => m) [true; false]).
Proof.
  apply (@filter_points_compose Reference.libs origin_index queries0
           [(0, 0, 0)] [(0, 0, 0)] [true; false] [true; false] 1 2).
  - lra.
  - apply filter0; lra.
  - apply filter0; lra.
Defined.
(** X6 at the default parameters and the distance 0.05. *)
Lemma adaptive_spacing_bounds_witness :
  exists level,
    FieldGenerator._get_adaptive_spacing default_generator (1 / 20)
    = Ok (FieldGenerator.Cells (2 ^ level)) /\
    (1 <= level
     <= Py.int (FieldGenerator.density_falloff default_generator + 1))%Z /\
    (2 <= 2 ^ level
     <= 2 ^ Py.int (FieldGenerator.density_falloff default_generator + 1))%Z.
Proof.
  apply (adaptive_spacing_bounds default_generator (1 / 20));
    cbn [FieldGenerator.min_dist FieldGenerator.surface_dist
         FieldGenerator.density_falloff default_generator]; lra.
Defined.

(** X7 at the default parameters, between the distances 0.05 and 0.08. *)
Lemma adaptive_spacing_monotone_witness :
  exists s1 s2,
    FieldGenerator._get_adaptive_spacing default_generator (1 / 20) = Ok s1 /\
    FieldGenerator._get_adaptive_spacing default_generator (2 / 25) = Ok s2 /\
    spacing_le s1 s2.
Proof.
  apply (adaptive_spacing_monotone origin_index [] default_generator
           (1 / 20) (2 / 25)).
  - exact default_init.
  - cbn [FieldGenerator.density_falloff default_generator]. lra.
  - lra.
Defined.

(** X8 at the single-vertex source: the one point returned is one step
    above [bounds_min0] on every axis. *)
Lemma generate_on_half_grid_witness :
  on_half_grid bounds_min0 (FieldGenerator.base_spacing generator0) center0 /\
  (0 < FieldGenerator.base_spacing generator0 ->
   above_min bounds_min0 (FieldGenerator.base_spacing generator0) center0) /\
  (FieldGenerator.base_spacing generator0 < 0 ->
   below_min bounds_min0 (FieldGenerator.base_spacing generator0) center0).
Proof.
  apply (@generate_on_half_grid Reference.libs generator0
           (FieldGenerator.append_point generator0 center0)
           bounds_min0 bounds_max0 [center0]).
  - exact generate0.
  - left; reflexivity.
Defined.









(** X2 at four control points against two targets, and at one control
    point against two targets on an instance that was fitted before. *)
Lemma fit_rejects_mismatched_lengths_witness :
  @RBFCore.fit Reference.libs rbf0 source4 target2
  = (Raise (ValueError "operands could not be broadcast together"), rbf0) /\
  @RBFCore.fit Reference.libs stale_rbf source0 target2
  = (Raise (ValueError "could not broadcast input array"),
     RBFCore.set_control_points stale_rbf source0) /\
  RBFCore.weights (snd (RBFCore.fit stale_rbf source0 target2))
  = RBFCore.weights stale_rbf /\
  RBFCore.polynomial_weights (snd (RBFCore.fit stale_rbf source0 target2))
  = RBFCore.polynomial_weights stale_rbf /\
  RBFCore.control_points (snd (RBFCore.fit stale_rbf source0 target2))
  = Some source0.
Proof.
  split.
  - apply (proj1 (@fit_rejects_mismatched_lengths Reference.libs rbf0
                    source4 target2)); discriminate.
  - apply (proj2 (@fit_rejects_mismatched_lengths Reference.libs stale_rbf
                    source0 target2)).
    + reflexivity.
    + apply le_n.
Defined.

(** The default parameters with a grid spacing of zero. *)
Definition flat_generator : FieldGenerator.t :=
  FieldGenerator.mk origin_index 0 (1 / 10) (2 / 10) (5 / 1000) 3
    (1 / (2 / 10 - 5 / 1000)) [] [].

(** X10 at a falloff of -3, and at a grid spacing of zero. *)
Lemma generate_bad_parameters_witness :
  @FieldGenerator.generate Reference.libs steep_generator
    bounds_min0 bounds_max0
  = Some (Raise (ValueError "negative shift count"),
          FieldGenerator.reset steep_generator) /\
  @FieldGenerator.generate Reference.libs flat_generator
    bounds_min0 bounds_max0
  = Some (Raise (if Reqb (fst (fst bounds_max0) - fst (fst bounds_min0)) 0
                 then ValueError "cannot convert float NaN to integer"
                 else OverflowError
                        "cannot convert float infinity to integer"),
          FieldGenerator.reset flat_generator).
Proof.
  split.
  - apply (proj1 (@generate_bad_parameters Reference.libs steep_generator
                    bounds_min0 bounds_max0)).
    cbn [FieldGenerator.density_falloff steep_generator]. lra.
  - apply (proj2 (@generate_bad_parameters Reference.libs flat_generator
                    bounds_min0 bounds_max0)).
    + cbn [FieldGenerator.density_falloff flat_generator]. lra.
    + reflexivity.
Defined.

(** X13 at the single-vertex source. *)
Lemma padded_bounds_encloses_witness :
  let margin :=
    Py.get (DeformationPipeline.params pipeline0) "bbox_margin" (1 / 10) in
  exists lx ly lz hx hy hz,
    DeformationPipeline.padded_bounds pipeline0 source0
    = Ok ((lx, ly, lz), (hx, hy, hz)) /\
    (forall x y z, In (x, y, z) source0 ->
       lx + margin <= x <= hx - margin /\
       ly + margin <= y <= hy - margin /\
       lz + margin <= z <= hz - margin) /\
    In (lx + margin) (map (fun p => fst (fst p)) source0) /\
    In (ly + margin) (map (fun p => snd (fst p)) source0) /\
    In (lz + margin) (map (fun p => snd p) source0) /\
    In (hx - margin) (map (fun p => fst (fst p)) source0) /\
    In (hy - margin) (map (fun p => snd (fst p)) source0) /\
    In (hz - margin) (map (fun p => snd p) source0).
Proof.
  apply (proj2 (@padded_bounds_encloses Reference.libs pipeline0 source0)).
  discriminate.
Defined.
